(** * Routstr client SDK: wallet accounting and NIP-60 gift wraps

    A shallow embedding of [src/utils/cashu.ts], [src/utils/nip60.ts] and of
    the gift-wrap methods of the [RoutstrClient] class, with the properties
    that the specification states about them.

    The asynchronous functions of the SDK are embedded in a small state and
    exception monad over a [World]: the browser's [localStorage] (which may be
    undefined) and the trace of the requests sent to the remote service and
    to the mint.  The remote service, the mint and the nostr-tools primitives
    are parameters of the development.

    Conventions of the embedding:
    - a JavaScript number is an integer of [Z] (balances, amounts of proofs,
      kinds, dates) or a rational of [Q] (the amount asked of the mint,
      which the code rounds up); [NaN] and the infinities are left out;
    - a key of [localStorage] whose value is JSON holds either the text of a
      value of the expected shape or text that [JSON.parse] rejects;
      [setItem] and [removeItem] do not throw;
    - [console.error] and [console.warn] are not recorded. *)

From Stdlib Require Import ZArith List String Ascii Bool Lia QArith Qround.
From Stdlib Require Import DecimalString.
Import ListNotations.

Local Open Scope string_scope.
Local Open Scope Z_scope.

(* ================================================================== *)
(** ** JavaScript values and control flow *)
(* ================================================================== *)

Module Js.

(** A non-empty string is truthy, [""] is falsy. *)
Definition truthy (s : string) : bool := negb (String.eqb s "").

(** [getItem] gives [null] or a string; [null] and [""] are both falsy. *)
Definition truthy_item (o : option string) : option string :=
  match o with
  | Some s => if truthy s then Some s else None
  | None => None
  end.

(** [s.includes(sub)] *)
Definition includes (s sub : string) : bool :=
  match String.index 0 sub s with
  | Some _ => true
  | None => false
  end.

(** [s.endsWith(suf)] *)
Definition endsWith (s suf : string) : bool :=
  let n := String.length s in
  let m := String.length suf in
  (m <=? n)%nat && String.eqb (String.substring (n - m) m s) suf.

(** What a [throw] carries: an [Error] object with its message, or any other
    value (for which [error instanceof Error] is false). *)
Inductive Thrown : Type :=
| ErrorObj (message : string)
| NonError.

Inductive Outcome (A : Type) : Type :=
| Ok (a : A)
| Throw (e : Thrown).
Arguments Ok {A} a.
Arguments Throw {A} e.

(** [error instanceof Error ? error.message : dflt] *)
Definition message_or (e : Thrown) (dflt : string) : string :=
  match e with
  | ErrorObj m => m
  | NonError => dflt
  end.

(** A whole number inside a template literal. *)
Definition show (z : Z) : string := NilZero.string_of_int (Z.to_int z).

(** [amount % 1 !== 0] on a rational number. *)
Definition is_fractional (q : Q) : bool :=
  negb (Z.eqb (Qnum q mod Zpos (Qden q)) 0).

(** [Math.ceil] *)
Definition Math_ceil (q : Q) : Q := inject_Z (Qceiling q).

End Js.
Export Js.

(* ================================================================== *)
(** ** Data *)
(* ================================================================== *)

(** [interface CashuProof] *)
Record CashuProof : Type := mkProof {
  amount : Z;
  secret : string;
  C : string;
  id : string
}.

(** A nostr event (nostr-tools' [Event]); a tag is an array of strings. *)
Record Event : Type := mkEvent {
  kind : Z;
  pubkey : string;
  created_at : Z;
  tags : list (list string);
  content : string;
  ev_id : string;
  sig : string
}.

(** The text held under a key whose values are JSON: either the text that
    [JSON.stringify] gives for a value, or some other non-empty text, which
    [JSON.parse] rejects. *)
Inductive Stored (A : Type) : Type :=
| Text (a : A)
| Junk.
Arguments Text {A} a.
Arguments Junk {A}.

(** [localStorage], one field per key the SDK uses.  [None] stands for what
    the code treats as absent: [getItem] giving [null] or the empty string. *)
Record LocalStorage : Type := mkStorage {
  (* 'routstr_cashu_proofs' *)
  cashu_proofs : option (Stored (list CashuProof));
  (* 'routstr_current_token', a raw string *)
  current_token : option string;
  (* 'routstr_transaction_history', raw *)
  transaction_history : option string;
  (* 'routstr_wrapped_cashu_tokens' *)
  wrapped_cashu_tokens : option (Stored (list Event))
}.

(** A request as [fetch] receives it. *)
Record Request : Type := mkRequest {
  url : string;
  method : string;
  headers : list (string * string)
}.

(** The parsed body of a response of the remote wallet: [data.balance] for the
    balance query, [data.token] for the refund. *)
Record Data : Type := mkData {
  balance : Z;
  d_token : option string
}.

Record Response : Type := mkResponse {
  status : Z;
  statusText : string;
  json : Outcome Data
}.

(** [response.ok], as the Fetch standard defines it. *)
Definition ok (r : Response) : bool := (200 <=? status r) && (status r <=? 299).

(** What [wallet.send] resolves to. *)
Record SendResult : Type := mkSend {
  send : option (list CashuProof);
  keep : list CashuProof
}.

(** The interactions with the outside, newest first. *)
Inductive Call : Type :=
| CallFetch (r : Request)
| CallLoadMint (mintUrl : string)
| CallSend (mintUrl : string) (amt : Q) (proofs : list CashuProof)
| CallReceive (mintUrl : string) (token : string).

Record World : Type := mkWorld {
  storage : option LocalStorage;   (* [None]: [typeof localStorage === 'undefined'] *)
  trace : list Call
}.

(** The outside: each answer may depend on what was sent before.
    [wallet_receive] gives [None] for a result that is not an array. *)
Record Externals : Type := mkExternals {
  ext_fetch : list Call -> Request -> Outcome Response;
  ext_loadMint : list Call -> string -> Outcome unit;
  ext_send : list Call -> string -> Q -> list CashuProof -> Outcome SendResult;
  ext_receive : list Call -> string -> string -> Outcome (option (list CashuProof));
  (* [btoa(JSON.stringify({ token: [{ mint, proofs }] }))]; [btoa] can throw *)
  ext_btoa_json : string -> list CashuProof -> Outcome string
}.

(* ================================================================== *)
(** ** The monad of asynchronous computations *)
(* ================================================================== *)

Definition Async (A : Type) : Type := World -> Outcome A * World.

Definition ret {A} (a : A) : Async A := fun w => (Ok a, w).

Definition throw {A} (e : Thrown) : Async A := fun w => (Throw e, w).

Definition bind {A B} (m : Async A) (k : A -> Async B) : Async B :=
  fun w =>
    match m w with
    | (Ok a, w') => k a w'
    | (Throw e, w') => (Throw e, w')
    end.

(** [try { m } catch (error) { h error }]: effects before the throw stay. *)
Definition try_catch {A} (m : Async A) (h : Thrown -> Async A) : Async A :=
  fun w =>
    match m w with
    | (Ok a, w') => (Ok a, w')
    | (Throw e, w') => h e w'
    end.

Declare Scope async_scope.
Delimit Scope async_scope with async.
Notation "x <- m ;; k" := (bind m (fun x => k))
  (at level 61, m at next level, right associativity) : async_scope.
Notation "m ;; k" := (bind m (fun _ => k))
  (at level 61, right associativity) : async_scope.
Local Open Scope async_scope.

(** [typeof localStorage === 'undefined'] *)
Definition localStorage_undefined : Async bool :=
  fun w =>
    match storage w with
    | None => (Ok true, w)
    | Some _ => (Ok false, w)
    end.

(** Reading or writing [localStorage] where it is undefined is a
    [ReferenceError]. *)
Definition read_storage {A} (f : LocalStorage -> A) : Async A :=
  fun w =>
    match storage w with
    | None => (Throw (ErrorObj "localStorage is not defined"), w)
    | Some st => (Ok (f st), w)
    end.

Definition write_storage (f : LocalStorage -> LocalStorage) : Async unit :=
  fun w =>
    match storage w with
    | None => (Throw (ErrorObj "localStorage is not defined"), w)
    | Some st => (Ok tt, {| storage := Some (f st); trace := trace w |})
    end.

(** [JSON.parse] on the text of a JSON key. *)
Definition JSON_parse {A} (t : Stored A) : Async A :=
  match t with
  | Text a => ret a
  | Junk => throw (ErrorObj "Unexpected token in JSON")
  end.

Definition lift_outcome {A} (o : Outcome A) : Async A :=
  fun w => (o, w).

(* ================================================================== *)
(** ** [src/utils/cashu.ts] *)
(* ================================================================== *)

Module Cashu.

Definition MSATS_PER_SAT : Z := 1000.
Definition DEFAULT_TOKEN_AMOUNT : Q := inject_Z 50.

(** [localStorage.getItem(CASHU_PROOFS_KEY)] *)
Definition getItem_CASHU_PROOFS_KEY : Async (option (Stored (list CashuProof))) :=
  read_storage cashu_proofs.

(** [localStorage.setItem(CASHU_PROOFS_KEY, JSON.stringify(proofs))] *)
Definition setItem_CASHU_PROOFS_KEY (proofs : list CashuProof) : Async unit :=
  write_storage (fun st =>
    {| cashu_proofs := Some (Text proofs);
       current_token := current_token st;
       transaction_history := transaction_history st;
       wrapped_cashu_tokens := wrapped_cashu_tokens st |}).

(** [localStorage.getItem(CURRENT_TOKEN_KEY)] *)
Definition getItem_CURRENT_TOKEN_KEY : Async (option string) :=
  read_storage current_token.

(** [localStorage.setItem(CURRENT_TOKEN_KEY, token)] *)
Definition setItem_CURRENT_TOKEN_KEY (token : string) : Async unit :=
  write_storage (fun st =>
    {| cashu_proofs := cashu_proofs st;
       current_token := Some token;
       transaction_history := transaction_history st;
       wrapped_cashu_tokens := wrapped_cashu_tokens st |}).

(** [localStorage.removeItem(CURRENT_TOKEN_KEY)] *)
Definition removeItem_CURRENT_TOKEN_KEY : Async unit :=
  write_storage (fun st =>
    {| cashu_proofs := cashu_proofs st;
       current_token := None;
       transaction_history := transaction_history st;
       wrapped_cashu_tokens := wrapped_cashu_tokens st |}).

(** [proofs.reduce((total, proof) => total + proof.amount, 0)] *)
Definition sum_amounts (proofs : list CashuProof) : Z :=
  fold_left (fun total proof => total + amount proof) proofs 0.

Definition getBalanceFromStoredProofs : Async Z :=
  try_catch
    (undef <- localStorage_undefined ;;
     if undef then ret 0 else
     storedProofs <- getItem_CASHU_PROOFS_KEY ;;
     match storedProofs with
     | None => ret 0
     | Some text =>
         proofs <- JSON_parse text ;;
         ret (sum_amounts proofs)
     end)
    (fun error => ret 0).

Definition invalidateApiToken : Async unit :=
  undef <- localStorage_undefined ;;
  if negb undef then removeItem_CURRENT_TOKEN_KEY else ret tt.

(** The request that [fetchBalances] sends for a token. *)
Definition balance_query (baseUrl token : string) : Request :=
  {| url := baseUrl ++ "v1/wallet/";
     method := "GET";
     headers := [("Authorization", "Bearer " ++ token)] |}.

(** The request that [refundRemainingBalance] sends for a token. *)
Definition refund_request (baseUrl token : string) : Request :=
  {| url := (if endsWith baseUrl "/" then baseUrl else baseUrl ++ "/")
            ++ "v1/wallet/refund";
     method := "POST";
     headers := [("Authorization", "Bearer " ++ token);
                 ("Content-Type", "application/json")] |}.

(** The result of [refundRemainingBalance] and of [importToken]. *)
Record OpResult : Type := mkResult {
  success : bool;
  imported : option Z;      (* [amount?], set by [importToken] only *)
  message : option string
}.

Section WithExternals.

Variable ext : Externals.

(** [await fetch(url, { method, headers })] *)
Definition fetch (r : Request) : Async Response :=
  fun w =>
    (ext_fetch ext (trace w) r,
     {| storage := storage w; trace := CallFetch r :: trace w |}).

(** [const wallet = new CashuWallet(new CashuMint(mintUrl)); await wallet.loadMint()] *)
Definition loadMint (mintUrl : string) : Async unit :=
  fun w =>
    (ext_loadMint ext (trace w) mintUrl,
     {| storage := storage w; trace := CallLoadMint mintUrl :: trace w |}).

(** [await wallet.send(amount, proofs)] *)
Definition wallet_send (mintUrl : string) (amt : Q) (proofs : list CashuProof)
  : Async SendResult :=
  fun w =>
    (ext_send ext (trace w) mintUrl amt proofs,
     {| storage := storage w; trace := CallSend mintUrl amt proofs :: trace w |}).

(** [await wallet.receive(token)] *)
Definition wallet_receive (mintUrl : string) (token : string)
  : Async (option (list CashuProof)) :=
  fun w =>
    (ext_receive ext (trace w) mintUrl token,
     {| storage := storage w; trace := CallReceive mintUrl token :: trace w |}).

(** [await response.json()] *)
Definition response_json (r : Response) : Async Data := lift_outcome (json r).

Definition refundRemainingBalance (mintUrl baseUrl : string) (token : option string)
  : Async OpResult :=
  try_catch
    (undef <- localStorage_undefined ;;
     if undef then
       ret (mkResult false None (Some "LocalStorage not available"))
     else
     (* token || localStorage.getItem(CURRENT_TOKEN_KEY) *)
     storedToken <- match truthy_item token with
                    | Some t => ret (Some t)
                    | None => getItem_CURRENT_TOKEN_KEY
                    end ;;
     match truthy_item storedToken with
     | None => ret (mkResult true None (Some "No token to refund"))
     | Some storedToken =>
         if negb (truthy baseUrl) then
           ret (mkResult false None (Some "No base URL configured"))
         else
         let normalizedBaseUrl :=
           if endsWith baseUrl "/" then baseUrl else baseUrl ++ "/" in
         response <- fetch {| url := normalizedBaseUrl ++ "v1/wallet/refund";
                              method := "POST";
                              headers := [("Authorization", "Bearer " ++ storedToken);
                                          ("Content-Type", "application/json")] |} ;;
         if negb (ok response) then
           throw (ErrorObj ("Refund request failed with status " ++ show (status response)))
         else
         data <- response_json response ;;
         match truthy_item (d_token data) with
         | Some data_token =>
             loadMint mintUrl ;;
             result <- wallet_receive mintUrl data_token ;;
             let proofs := match result with Some a => a | None => [] end in
             match proofs with
             | _ :: _ =>
                 storedProofs <- getItem_CASHU_PROOFS_KEY ;;
                 existingProofs <- match storedProofs with
                                   | Some text => JSON_parse text
                                   | None => ret []
                                   end ;;
                 setItem_CASHU_PROOFS_KEY (existingProofs ++ proofs)
             | [] => ret tt
             end
         | None => ret tt
         end ;;
         (* Clear the current token since it's been refunded *)
         invalidateApiToken ;;
         ret (mkResult true None (Some "Refund completed successfully"))
     end)
    (fun error =>
       ret (mkResult false None
              (Some (message_or error "Unknown error occurred during refund")))).

Definition fetchBalances (mintUrl baseUrl : string) : Async (Z * Z) :=
  (* [apiBalance] is a variable of the function: what the [try] block last
     assigned to it is what is returned, also when the block throws. *)
  apiBalance <-
    try_catch
      (undef <- localStorage_undefined ;;
       if negb undef then
         token <- getItem_CURRENT_TOKEN_KEY ;;
         match truthy_item token with
         | Some token =>
             response <- fetch {| url := baseUrl ++ "v1/wallet/";
                                  method := "GET";
                                  headers := [("Authorization", "Bearer " ++ token)] |} ;;
             if negb (ok response) then
               if status response =? 402 then
                 (* Invalidate current token since it's out of balance *)
                 invalidateApiToken ;;
                 ret 0
               else ret 0
             else
               data <- response_json response ;;
               let apiBalance := balance data in
               if apiBalance >? 0 then
                 (* Refund remaining balance *)
                 try_catch
                   (refundRemainingBalance mintUrl baseUrl None ;;
                    ret 0)
                   (fun error => ret apiBalance)
               else ret apiBalance
         | None => ret 0
         end
       else ret 0)
      (fun error => ret 0) ;;
  (* Always get proofs balance *)
  balanceFromProofs <- getBalanceFromStoredProofs ;;
  let proofsBalance := balanceFromProofs * MSATS_PER_SAT in
  ret (apiBalance, proofsBalance).

Definition generateApiToken (mintUrl : string) (amt : Q) : Async (option string) :=
  try_catch
    (undef <- localStorage_undefined ;;
     if undef then ret None else
     (* Check if amount is a decimal and round up if necessary *)
     let amt := if is_fractional amt then Math_ceil amt else amt in
     storedProofs <- getItem_CASHU_PROOFS_KEY ;;
     match storedProofs with
     | None => ret None
     | Some text =>
         proofs <- JSON_parse text ;;
         loadMint mintUrl ;;
         r <- wallet_send mintUrl amt proofs ;;
         match send r with
         | None => ret None
         | Some [] => ret None
         | Some outgoing =>
             (* Update stored proofs with remaining proofs *)
             setItem_CASHU_PROOFS_KEY (keep r) ;;
             encoded <- lift_outcome (ext_btoa_json ext mintUrl outgoing) ;;
             ret (Some ("cashuA" ++ encoded))
         end
     end)
    (fun error =>
       match error with
       | ErrorObj m => if includes m "funds" then ret None else ret None
       | NonError => ret None
       end).

(** [string | null | { hasTokens: false }] *)
Inductive TokenResult : Type :=
| TokenString (token : string)
| Null
| HasTokensFalse.

Definition getOrCreateApiToken (mintUrl : string) (amt : option Q)
  : Async TokenResult :=
  let amt := match amt with Some a => a | None => DEFAULT_TOKEN_AMOUNT end in
  try_catch
    (undef <- localStorage_undefined ;;
     if undef then ret Null else
     (* Try to get existing token *)
     storedToken <- getItem_CURRENT_TOKEN_KEY ;;
     match truthy_item storedToken with
     | Some storedToken => ret (TokenString storedToken)
     | None =>
         (* Check if any tokens are available *)
         storedProofs <- getItem_CASHU_PROOFS_KEY ;;
         match storedProofs with
         | None => ret HasTokensFalse
         | Some _ =>
             (* Generate new token if none exists *)
             newToken <- generateApiToken mintUrl amt ;;
             match truthy_item newToken with
             | Some newToken =>
                 setItem_CURRENT_TOKEN_KEY newToken ;;
                 ret (TokenString newToken)
             | None => ret Null
             end
         end
     end)
    (fun error => ret Null).

Definition importToken (tokenString mintUrl : string) : Async OpResult :=
  try_catch
    (undef <- localStorage_undefined ;;
     if undef then
       ret (mkResult false None (Some "LocalStorage not available"))
     else
     loadMint mintUrl ;;
     result <- wallet_receive mintUrl tokenString ;;
     let proofs := match result with Some a => a | None => [] end in
     match proofs with
     | [] => ret (mkResult false None (Some "Invalid token format"))
     | _ :: _ =>
         storedProofs <- getItem_CASHU_PROOFS_KEY ;;
         existingProofs <- match storedProofs with
                           | Some text => JSON_parse text
                           | None => ret []
                           end ;;
         setItem_CASHU_PROOFS_KEY (existingProofs ++ proofs) ;;
         let importedAmount := sum_amounts proofs in
         ret (mkResult true (Some importedAmount)
                (Some ("Successfully imported " ++ show importedAmount ++ " sats")))
     end)
    (fun error =>
       let errorMessage := message_or error "Unknown error" in
       if includes errorMessage "already spent" then
         ret (mkResult false None (Some "This token has already been spent"))
       else ret (mkResult false None (Some errorMessage))).

End WithExternals.

End Cashu.

(* ================================================================== *)
(** ** [src/utils/nip60.ts] *)
(* ================================================================== *)

Module Nip60.

(** A private key is a [Uint8Array]. *)
Definition PrivateKey : Type := list Byte.byte.

(** What [JSON.parse] gives for a decrypted content: [null], on which a
    property access throws, or a value with its [token] and [note]
    properties ([None] for [undefined]). *)
Inductive GiftJson : Type :=
| JNull
| JObject (token note : option string).

(** The primitives of nostr-tools and the JSON codec of the payload. *)
Record Primitives : Type := mkPrimitives {
  getPublicKey : PrivateKey -> Outcome string;
  nip04_encrypt : PrivateKey -> string -> string -> Outcome string;
  nip04_decrypt : PrivateKey -> string -> string -> Outcome string;
  getEventHash : Event -> string;
  schnorr_sign : string -> PrivateKey -> string;
  (* [JSON.stringify({ token, note })] *)
  JSON_stringify_gift : string -> option string -> string;
  JSON_parse_gift : string -> Outcome GiftJson
}.

(** [interface GiftWrap]; the fields read from the parsed content are
    whatever the content holds. *)
Record GiftWrap : Type := mkGiftWrap {
  gw_token : option string;
  recipientPubkey : string;
  gw_note : option string
}.

(** [tag[i] === s] *)
Definition tag_is (tag : list string) (i : nat) (s : string) : bool :=
  match nth_error tag i with
  | Some x => String.eqb x s
  | None => false
  end.

Definition WRAPPED_TOKENS_KEY_get : Async (option (Stored (list Event))) :=
  read_storage wrapped_cashu_tokens.

(** [localStorage.setItem('routstr_wrapped_cashu_tokens', JSON.stringify(tokens))] *)
Definition WRAPPED_TOKENS_KEY_set (tokens : list Event) : Async unit :=
  write_storage (fun st =>
    {| cashu_proofs := cashu_proofs st;
       current_token := current_token st;
       transaction_history := transaction_history st;
       wrapped_cashu_tokens := Some (Text tokens) |}).

Definition storeWrappedToken (wrappedToken : Event) : Async unit :=
  try_catch
    (undef <- localStorage_undefined ;;
     if undef then ret tt else
     storedTokens <- WRAPPED_TOKENS_KEY_get ;;
     (* getItem(...) || '[]' *)
     tokens <- JSON_parse (match storedTokens with
                           | Some text => text
                           | None => Text []
                           end) ;;
     WRAPPED_TOKENS_KEY_set (tokens ++ [wrappedToken]))
    (fun error => ret tt).

Definition getStoredWrappedTokens : Async (list Event) :=
  try_catch
    (undef <- localStorage_undefined ;;
     if undef then ret [] else
     storedTokens <- WRAPPED_TOKENS_KEY_get ;;
     match storedTokens with
     | None => ret []
     | Some text => JSON_parse text
     end)
    (fun error => ret []).

Definition removeWrappedToken (tokenId : string) : Async unit :=
  try_catch
    (undef <- localStorage_undefined ;;
     if undef then ret tt else
     tokens <- getStoredWrappedTokens ;;
     let updatedTokens :=
       filter (fun token => negb (String.eqb (ev_id token) tokenId)) tokens in
     WRAPPED_TOKENS_KEY_set updatedTokens)
    (fun error => ret tt).

Definition isValidCashuGiftWrap (event : Event) : bool :=
  if negb (kind event =? 1059) then false else
  let hasRecipient := existsb (fun tag => tag_is tag 0 "p") (tags event) in
  let isCashuGift :=
    existsb (fun tag => tag_is tag 0 "gift" && tag_is tag 1 "cashu") (tags event) in
  hasRecipient && isCashuGift.

Section WithPrimitives.

Variable prim : Primitives.
Variable Date_now : Z.    (* [Date.now()], in milliseconds *)

(** [getPublicKeyFromPrivateKey] of [src/utils/nostr.ts] *)
Definition getPublicKeyFromPrivateKey (privateKey : PrivateKey) : Async string :=
  lift_outcome (getPublicKey prim privateKey).

(** nostr-tools' [finalizeEvent]: sets the public key of the signer, the
    hash of the event and its signature. *)
Definition finalizeEvent (event : Event) (secretKey : PrivateKey) : Async Event :=
  signer <- lift_outcome (getPublicKey prim secretKey) ;;
  let e1 := {| kind := kind event; pubkey := signer;
               created_at := created_at event; tags := tags event;
               content := content event; ev_id := ev_id event;
               sig := sig event |} in
  let hash := getEventHash prim e1 in
  ret {| kind := kind e1; pubkey := pubkey e1;
         created_at := created_at e1; tags := tags e1;
         content := content e1; ev_id := hash;
         sig := schnorr_sign prim hash secretKey |}.

Definition wrapCashuToken (token recipientPubkey : string)
    (senderPrivateKey : PrivateKey) (note : option string) : Async Event :=
  senderPubkey <- getPublicKeyFromPrivateKey senderPrivateKey ;;
  (* Encrypt the token for the recipient *)
  encryptedContent <-
    lift_outcome (nip04_encrypt prim senderPrivateKey recipientPubkey
                    (JSON_stringify_gift prim token note)) ;;
  let event :=
    {| kind := 1059;
       pubkey := senderPubkey;
       created_at := Date_now / 1000;
       tags := [["p"; recipientPubkey]; ["gift"; "cashu"]];
       content := encryptedContent;
       ev_id := "";
       sig := "" |} in
  (* Set the event ID and sign the event *)
  let event :=
    {| kind := kind event; pubkey := pubkey event;
       created_at := created_at event; tags := tags event;
       content := content event; ev_id := getEventHash prim event;
       sig := sig event |} in
  finalizeEvent event senderPrivateKey.

Definition unwrapCashuToken (event : Event) (recipientPrivateKey : PrivateKey)
  : Async (option GiftWrap) :=
  try_catch
    (recipientPubkey <- getPublicKeyFromPrivateKey recipientPrivateKey ;;
     (* Verify this gift is for us *)
     let isForUs :=
       existsb (fun tag => tag_is tag 0 "p" && tag_is tag 1 recipientPubkey)
               (tags event) in
     if negb isForUs then ret None else
     (* Verify it's a Cashu gift *)
     let isCashuGift :=
       existsb (fun tag => tag_is tag 0 "gift" && tag_is tag 1 "cashu")
               (tags event) in
     if negb isCashuGift then ret None else
     (* Decrypt the content *)
     decryptedContent <-
       lift_outcome (nip04_decrypt prim recipientPrivateKey (pubkey event)
                       (content event)) ;;
     giftContent <- lift_outcome (JSON_parse_gift prim decryptedContent) ;;
     match giftContent with
     | JNull => throw (ErrorObj "Cannot read properties of null")
     | JObject token note =>
         ret (Some {| gw_token := token;
                      recipientPubkey := recipientPubkey;
                      gw_note := note |})
     end)
    (fun error => ret None).

End WithPrimitives.

End Nip60.

(* ================================================================== *)
(** ** The gift-wrap methods of [class RoutstrClient] *)
(* ================================================================== *)

Module Client.

Import Nip60.

(** The fields of the class that these methods read. *)
Record RoutstrClient : Type := mkClient {
  privateKey : PrivateKey;
  publicKey : string
}.

(** [interface GiftWrapResult] *)
Record GiftWrapResult : Type := mkGiftWrapResult {
  w_success : bool;
  w_event : option Event;
  w_message : option string
}.

(** [interface UnwrapResult] *)
Record UnwrapResult : Type := mkUnwrapResult {
  u_success : bool;
  u_gift : option GiftWrap;
  u_message : option string
}.

Section Methods.

Variable prim : Primitives.
Variable Date_now : Z.
Variable this : RoutstrClient.

Definition wrapCashuToken (token recipientPubkey : string) (note : option string)
  : Async GiftWrapResult :=
  try_catch
    (event <- Nip60.wrapCashuToken prim Date_now token recipientPubkey
                (privateKey this) note ;;
     (* Store the wrapped token locally *)
     storeWrappedToken event ;;
     ret (mkGiftWrapResult true (Some event) (Some "Token wrapped successfully")))
    (fun error =>
       ret (mkGiftWrapResult false None
              (Some (message_or error "Failed to wrap token")))).

Definition unwrapCashuToken (event : Event) : Async UnwrapResult :=
  try_catch
    ((* Validate it's a proper gift wrap event *)
     if negb (isValidCashuGiftWrap event) then
       ret (mkUnwrapResult false None (Some "Invalid gift wrap event"))
     else
     gift <- Nip60.unwrapCashuToken prim event (privateKey this) ;;
     match gift with
     | None =>
         ret (mkUnwrapResult false None
                (Some "Failed to unwrap token or token not intended for this recipient"))
     | Some gift =>
         (* Remove from stored wrapped tokens if it was there *)
         removeWrappedToken (ev_id event) ;;
         ret (mkUnwrapResult true (Some gift) (Some "Token unwrapped successfully"))
     end)
    (fun error =>
       ret (mkUnwrapResult false None
              (Some (message_or error "Failed to unwrap token")))).

End Methods.

End Client.

(* ================================================================== *)
(** ** The transaction ledger of [src/utils/cashu.ts] *)
(* ================================================================== *)

Module Ledger.

(** [interface TransactionHistory] *)
Inductive TransactionType : Type :=
| Spent | Mint | Send | Import | Refund | GiftSent | GiftReceived.

Inductive TransactionStatus : Type :=
| Success | Failed.

Record TransactionHistory : Type := mkTransaction {
  tx_type : TransactionType;
  tx_amount : Z;
  tx_timestamp : Z;
  tx_status : TransactionStatus;
  tx_model : option string;
  tx_message : option string;
  tx_balance : option Z
}.

(** The ledger is kept as raw text under its key; the JSON codec of the
    array of entries is a parameter. *)
Record HistoryCodec : Type := mkHistoryCodec {
  JSON_stringify_history : list TransactionHistory -> string;
  JSON_parse_history : string -> Outcome (list TransactionHistory)
}.

(** [localStorage.getItem(TRANSACTION_HISTORY_KEY)] *)
Definition getItem_TRANSACTION_HISTORY_KEY : Async (option string) :=
  read_storage transaction_history.

(** [localStorage.setItem(TRANSACTION_HISTORY_KEY, text)] *)
Definition setItem_TRANSACTION_HISTORY_KEY (text : string) : Async unit :=
  write_storage (fun st =>
    {| cashu_proofs := cashu_proofs st;
       current_token := current_token st;
       transaction_history := Some text;
       wrapped_cashu_tokens := wrapped_cashu_tokens st |}).

Section WithCodec.

Variable codec : HistoryCodec.

Definition getTransactionHistory : Async (list TransactionHistory) :=
  try_catch
    (undef <- localStorage_undefined ;;
     if undef then ret [] else
     stored <- getItem_TRANSACTION_HISTORY_KEY ;;
     match truthy_item stored with
     | None => ret []
     | Some stored => lift_outcome (JSON_parse_history codec stored)
     end)
    (fun error => ret []).

Definition addTransaction (transaction : TransactionHistory) : Async unit :=
  try_catch
    (undef <- localStorage_undefined ;;
     if undef then ret tt else
     history <- getTransactionHistory ;;
     (* history.push(transaction) *)
     let history := (history ++ [transaction])%list in
     setItem_TRANSACTION_HISTORY_KEY (JSON_stringify_history codec history))
    (fun error => ret tt).

End WithCodec.

End Ledger.

(* ================================================================== *)
(** ** [src/utils/errors.ts] *)
(* ================================================================== *)

Module Errors.

(** The classes of errors; every class extends [RoutstrClientError]. *)
Inductive ErrorClass : Type :=
| RoutstrClientErrorClass
| AuthenticationErrorClass
| InsufficientBalanceErrorClass
| InvalidModelErrorClass
| NetworkErrorClass
| ValidationErrorClass
| TokenGenerationErrorClass.

(** An instance: its class and the fields the constructors set. *)
Record RoutstrClientError : Type := mkError {
  err_class : ErrorClass;
  err_message : string;
  err_code : string;
  err_statusCode : option Z
}.

Definition AuthenticationError (message : string) : RoutstrClientError :=
  mkError AuthenticationErrorClass message "AUTHENTICATION_ERROR" (Some 401).

Definition InsufficientBalanceError (message : string) : RoutstrClientError :=
  mkError InsufficientBalanceErrorClass message "INSUFFICIENT_BALANCE" (Some 402).

Definition InvalidModelError (message : string) : RoutstrClientError :=
  mkError InvalidModelErrorClass message "INVALID_MODEL" (Some 400).

Definition NetworkError (message : string) : RoutstrClientError :=
  mkError NetworkErrorClass message "NETWORK_ERROR" None.

Definition ValidationError (message : string) : RoutstrClientError :=
  mkError ValidationErrorClass message "VALIDATION_ERROR" (Some 400).

Definition TokenGenerationError (message : string) : RoutstrClientError :=
  mkError TokenGenerationErrorClass message "TOKEN_GENERATION_ERROR" None.

Definition handleHttpError (response : Response) : RoutstrClientError :=
  let status := status response in
  let statusText := statusText response in
  if status =? 400 then ValidationError ("Bad request: " ++ statusText)
  else if status =? 401 then AuthenticationError ("Unauthorized: " ++ statusText)
  else if status =? 402 then
    InsufficientBalanceError ("Payment required: " ++ statusText)
  else if status =? 404 then
    mkError RoutstrClientErrorClass ("Not found: " ++ statusText) "NOT_FOUND" (Some 404)
  else if status =? 429 then
    mkError RoutstrClientErrorClass ("Rate limited: " ++ statusText) "RATE_LIMITED"
            (Some 429)
  else if status =? 500 then
    mkError RoutstrClientErrorClass ("Server error: " ++ statusText) "SERVER_ERROR"
            (Some 500)
  else NetworkError ("HTTP " ++ show status ++ ": " ++ statusText).

(** [error instanceof C] for an instance of the hierarchy. *)
Definition instanceof (error : RoutstrClientError) (c : ErrorClass) : bool :=
  match c, err_class error with
  | RoutstrClientErrorClass, _ => true
  | AuthenticationErrorClass, AuthenticationErrorClass => true
  | InsufficientBalanceErrorClass, InsufficientBalanceErrorClass => true
  | InvalidModelErrorClass, InvalidModelErrorClass => true
  | NetworkErrorClass, NetworkErrorClass => true
  | ValidationErrorClass, ValidationErrorClass => true
  | TokenGenerationErrorClass, TokenGenerationErrorClass => true
  | _, _ => false
  end.

Definition isRoutstrError (error : RoutstrClientError) : bool :=
  instanceof error RoutstrClientErrorClass.
Definition isAuthenticationError (error : RoutstrClientError) : bool :=
  instanceof error AuthenticationErrorClass.
Definition isInsufficientBalanceError (error : RoutstrClientError) : bool :=
  instanceof error InsufficientBalanceErrorClass.
Definition isNetworkError (error : RoutstrClientError) : bool :=
  instanceof error NetworkErrorClass.
Definition isValidationError (error : RoutstrClientError) : bool :=
  instanceof error ValidationErrorClass.

End Errors.

(* ================================================================== *)
(** ** [src/utils/nostr.ts] and the configuration of [class RoutstrClient] *)
(* ================================================================== *)

Module Config.

Import Nip60 Errors.

(** What [nip19.decode] gives: the type of the entity, with the bytes of
    the key for an [nsec]. *)
Inductive Decoded : Type :=
| DecodedNsec (data : PrivateKey)
| DecodedOther (type : string).

(** [interface RoutstrConfig] *)
Record RoutstrConfig : Type := mkRoutstrConfig {
  cfg_nsec : string;
  cfg_mintUrl : option string;
  cfg_baseUrl : option string;
  cfg_defaultModel : option string
}.

(** [Required<RoutstrConfig>], the [config] field of the class. *)
Record FullConfig : Type := mkFullConfig {
  nsec : string;
  mintUrl : string;
  baseUrl : string;
  defaultModel : option string
}.

(** [Partial<Omit<RoutstrConfig, 'nsec'>>] *)
Record ConfigUpdates : Type := mkUpdates {
  upd_mintUrl : option string;
  upd_baseUrl : option string;
  upd_defaultModel : option string
}.

(** The fields of the class that the constructor sets. *)
Record ClientState : Type := mkClientState {
  st_privateKey : PrivateKey;
  st_publicKey : string;
  st_config : FullConfig
}.

Definition DEFAULT_mintUrl : string := "https://mint.minibits.cash/Bitcoin".
Definition DEFAULT_baseUrl : string := "https://api.routstr.com/".

(** How a [new RoutstrClient(config)] ends: with an instance, with a
    [ValidationError], or with whatever the key derivation threw. *)
Inductive Constructed : Type :=
| Built (client : ClientState)
| Rejected (error : RoutstrClientError)
| Crashed (error : Thrown).

(** [if (!config.baseUrl.endsWith('/')) config.baseUrl += '/'] *)
Definition ensure_trailing_slash (config : FullConfig) : FullConfig :=
  if negb (endsWith (baseUrl config) "/") then
    {| nsec := nsec config; mintUrl := mintUrl config;
       baseUrl := baseUrl config ++ "/";
       defaultModel := defaultModel config |}
  else config.

Section WithNostrTools.

Variable nip19_decode : string -> Outcome Decoded.
Variable prim : Primitives.

Definition decodePrivateKey (nsec : string) : option PrivateKey :=
  match nip19_decode nsec with
  | Ok (DecodedNsec data) => Some data
  | Ok (DecodedOther _) => None
  | Throw error => None
  end.

Definition validateNsec (nsec : string) : bool :=
  if negb (String.prefix "nsec1" nsec) then false else
  match decodePrivateKey nsec with
  | Some _ => true
  | None => false
  end.

(** [constructor(config: RoutstrConfig)] *)
Definition constructor (config : RoutstrConfig) : Constructed :=
  (* Validate and decode the nsec *)
  if negb (validateNsec (cfg_nsec config)) then
    Rejected (ValidationError "Invalid nsec key provided")
  else
  match decodePrivateKey (cfg_nsec config) with
  | None => Rejected (ValidationError "Failed to decode nsec key")
  | Some privateKey =>
      match getPublicKey prim privateKey with
      | Throw error => Crashed error
      | Ok publicKey =>
          (* Merge with defaults *)
          let merged :=
            {| nsec := cfg_nsec config;
               mintUrl := match cfg_mintUrl config with
                          | Some u => u
                          | None => DEFAULT_mintUrl
                          end;
               baseUrl := match cfg_baseUrl config with
                          | Some u => u
                          | None => DEFAULT_baseUrl
                          end;
               defaultModel := cfg_defaultModel config |} in
          (* Ensure baseUrl ends with / *)
          Built {| st_privateKey := privateKey;
                   st_publicKey := publicKey;
                   st_config := ensure_trailing_slash merged |}
      end
  end.

End WithNostrTools.

(** [updateConfig(updates)] *)
Definition updateConfig (this : ClientState) (updates : ConfigUpdates) : ClientState :=
  let merged :=
    {| nsec := nsec (st_config this);
       mintUrl := match upd_mintUrl updates with
                  | Some u => u
                  | None => mintUrl (st_config this)
                  end;
       baseUrl := match upd_baseUrl updates with
                  | Some u => u
                  | None => baseUrl (st_config this)
                  end;
       defaultModel := match upd_defaultModel updates with
                       | Some m => Some m
                       | None => defaultModel (st_config this)
                       end |} in
  {| st_privateKey := st_privateKey this;
     st_publicKey := st_publicKey this;
     st_config := ensure_trailing_slash merged |}.

(** [interface Balance], in sats. *)
Record Balance : Type := mkBalance {
  api : Z;
  proofs : Z;
  total : Z
}.

(** [getBalance()]; [Math.floor(x / 1000)] is the floored quotient. *)
Definition getBalance (ext : Externals) (this : ClientState) : Async Balance :=
  (r <- Cashu.fetchBalances ext (mintUrl (st_config this)) (baseUrl (st_config this)) ;;
   let (apiBalance, proofsBalance) := r in
   ret {| api := apiBalance / 1000;
          proofs := proofsBalance / 1000;
          total := (apiBalance + proofsBalance) / 1000 |})%async.

(** [importCashuToken(tokenString)] *)
Definition importCashuToken (ext : Externals) (this : ClientState)
    (tokenString : string) : Async Cashu.OpResult :=
  Cashu.importToken ext tokenString (mintUrl (st_config this)).

End Config.

(* ================================================================== *)
(** ** Shapes of the store used in the statements *)
(* ================================================================== *)

Module Shapes.

(** The persisted proof set read as a list: the list itself, or the empty
    list where nothing is persisted. *)
Definition holds (st : LocalStorage) (P : list CashuProof) : Prop :=
  cashu_proofs st = Some (Text P) \/ (cashu_proofs st = None /\ P = []).

(** [st] with another proof set and without ActiveToken. *)
Definition refunded (st : LocalStorage) (proofs : list CashuProof) : LocalStorage :=
  {| cashu_proofs := Some (Text proofs);
     current_token := None;
     transaction_history := transaction_history st;
     wrapped_cashu_tokens := wrapped_cashu_tokens st |}.

(** [st] without ActiveToken. *)
Definition cleared (st : LocalStorage) : LocalStorage :=
  {| cashu_proofs := cashu_proofs st;
     current_token := None;
     transaction_history := transaction_history st;
     wrapped_cashu_tokens := wrapped_cashu_tokens st |}.

(** The token that [refundRemainingBalance] uses: the explicit one if it
    is truthy, else the cached one. *)
Definition refund_token (explicit : option string) (st : LocalStorage)
    (tok : string) : Prop :=
  truthy_item explicit = Some tok \/
  (truthy_item explicit = None /\ truthy_item (current_token st) = Some tok).

(** The list of sent gifts read from the store: the list itself, or the
    empty list where nothing is stored. *)
Definition readable (st : LocalStorage) (gifts : list Event) : Prop :=
  wrapped_cashu_tokens st = Some (Text gifts)
  \/ (wrapped_cashu_tokens st = None /\ gifts = []).

(** [st] with another list of sent gifts. *)
Definition with_gifts (st : LocalStorage) (gifts : list Event) : LocalStorage :=
  {| cashu_proofs := cashu_proofs st;
     current_token := current_token st;
     transaction_history := transaction_history st;
     wrapped_cashu_tokens := Some (Text gifts) |}.

(** [await] each computation in turn. *)
Fixpoint in_turn (ms : list (Async unit)) : Async unit :=
  match ms with
  | [] => ret tt
  | m :: ms => (m ;; in_turn ms)%async
  end.

(** [st] with another text of the ledger. *)
Definition with_ledger (st : LocalStorage) (text : string) : LocalStorage :=
  {| cashu_proofs := cashu_proofs st;
     current_token := current_token st;
     transaction_history := Some text;
     wrapped_cashu_tokens := wrapped_cashu_tokens st |}.

End Shapes.

(* ================================================================== *)
(** ** Sample worlds *)
(* ================================================================== *)

Module Samples.

Import Cashu Nip60.

Definition proof_of (a : Z) (s : string) : CashuProof :=
  {| amount := a; secret := s; C := "02ab"; id := "009a1f293253e41e" |}.


Definition response_of (st : Z) (body : Outcome Data) : Response :=
  {| status := st; statusText := ""; json := body |}.

(** An outside that answers the balance query with [wallet], the refund
    request with [refund], a split with [split] and a redemption with
    [redeemed]. *)
Definition outside (wallet refund : Outcome Response)
    (split : Outcome SendResult)
    (redeemed : Outcome (option (list CashuProof))) : Externals :=
  {| ext_fetch := fun _ r =>
       if String.eqb (method r) "GET" then wallet else refund;
     ext_loadMint := fun _ _ => Ok tt;
     ext_send := fun _ _ _ _ => split;
     ext_receive := fun _ _ _ => redeemed;
     ext_btoa_json := fun _ _ => Ok "eyJ0b2tlbiI6W119" |}.

(** Stand-ins for the nostr-tools primitives: the public key spells the
    private key, a ciphertext is the plaintext behind a marker, and the
    payload is the token, a [#], and the note. *)
Definition toy_prim : Primitives :=
  {| getPublicKey := fun sk => Ok (string_of_list_byte sk);
     nip04_encrypt := fun _ _ m => Ok ("sealed:" ++ m);
     nip04_decrypt := fun _ _ c =>
       if String.prefix "sealed:" c
       then Ok (String.substring 7 (String.length c - 7) c)
       else Throw (ErrorObj "invalid ciphertext");
     getEventHash := fun e => "hash:" ++ content e;
     schnorr_sign := fun h sk => "sig:" ++ h;
     JSON_stringify_gift := fun t n =>
       t ++ "#" ++ match n with Some x => x | None => "" end;
     JSON_parse_gift := fun s =>
       match String.index 0 "#" s with
       | Some i =>
           let rest := String.substring (S i) (String.length s - S i) s in
           Ok (JObject (Some (String.substring 0 i s))
                       (if String.eqb rest "" then None else Some rest))
       | None => Throw (ErrorObj "Unexpected end of JSON input")
       end |}.

Definition alice_key : PrivateKey := list_byte_of_string "alice".
Definition bob_key : PrivateKey := list_byte_of_string "bob".
Definition carol_key : PrivateKey := list_byte_of_string "carol".

Definition gift_event (evid recipient : string) (gift_tag : list string) : Event :=
  {| kind := 1059; pubkey := "alice"; created_at := 1700000000;
     tags := [["p"; recipient]; gift_tag];
     content := "sealed:cashuAabc#thanks"; ev_id := evid; sig := "sig" |}.

Definition mintUrl : string := "https://mint.minibits.cash/Bitcoin".
Definition baseUrl : string := "https://api.routstr.com/".

(** Nothing can be reached. *)
Definition offline : Externals :=
  {| ext_fetch := fun _ _ => Throw (ErrorObj "Failed to fetch");
     ext_loadMint := fun _ _ => Throw (ErrorObj "Failed to fetch");
     ext_send := fun _ _ _ _ => Throw (ErrorObj "Failed to fetch");
     ext_receive := fun _ _ _ => Throw (ErrorObj "Failed to fetch");
     ext_btoa_json := fun _ _ => Ok "eyJ0b2tlbiI6W119" |}.

Definition no_funds : Outcome SendResult :=
  Throw (ErrorObj "Not enough funds available to send").

(** The remote wallet holds 5000 msat for the token and refunds them as a
    token that the mint redeems for one proof of 5 sat. *)
Definition remote_holds_5000 : Externals :=
  outside (Ok (response_of 200 (Ok (mkData 5000 None))))
          (Ok (response_of 200 (Ok (mkData 0 (Some "cashuArefund")))))
          no_funds
          (Ok (Some [proof_of 5 "s9"])).

(** The remote wallet answers the balance query with 402. *)
Definition remote_exhausted : Externals :=
  outside (Ok (response_of 402 (Throw (ErrorObj "Unexpected token"))))
          (Ok (response_of 200 (Ok (mkData 0 None))))
          no_funds
          (Ok (Some [])).

(** The mint cannot split: it fails with an error that is not about funds. *)
Definition mint_down : Externals :=
  outside (Throw (ErrorObj "Failed to fetch"))
          (Throw (ErrorObj "Failed to fetch"))
          (Throw (ErrorObj "Mint returned status 500"))
          (Throw (ErrorObj "Mint returned status 500")).

(** The mint rejects every token as spent and has nothing to split. *)
Definition mint_spent : Externals :=
  outside (Throw (ErrorObj "Failed to fetch"))
          (Throw (ErrorObj "Failed to fetch"))
          no_funds
          (Throw (ErrorObj "Token already spent.")).

(** A mint that hands out every proof it is given and keeps none, and has
    no funds when given none; the remote wallet has consumed the whole
    token and refunds nothing. *)
Definition mint_exact : Externals :=
  {| ext_fetch := fun _ _ => Ok (response_of 200 (Ok (mkData 0 None)));
     ext_loadMint := fun _ _ => Ok tt;
     ext_send := fun _ _ _ proofs =>
       match proofs with
       | [] => no_funds
       | _ :: _ => Ok {| send := Some proofs; keep := [] |}
       end;
     ext_receive := fun _ _ _ => Ok (Some []);
     ext_btoa_json := fun _ _ => Ok "eyJ0b2tlbiI6W119" |}.

Definition storage_of (proofs : option (Stored (list CashuProof)))
    (token : option string) (gifts : option (Stored (list Event))) : LocalStorage :=
  {| cashu_proofs := proofs;
     current_token := token;
     transaction_history := None;
     wrapped_cashu_tokens := gifts |}.

Definition bob : Client.RoutstrClient :=
  {| Client.privateKey := bob_key; Client.publicKey := "bob" |}.

End Samples.

(* ================================================================== *)
(** ** More sample worlds *)
(* ================================================================== *)

Module MoreSamples.

Import Cashu Nip60 Samples.

(** The remote wallet refunds a token for which the mint gives nothing. *)
Definition remote_returns_dust : Externals :=
  outside (Ok (response_of 200 (Ok (mkData 5000 None))))
          (Ok (response_of 200 (Ok (mkData 0 (Some "cashuAdust")))))
          no_funds
          (Ok (Some [])).

(** The remote wallet holds 5000 msat but the refund request fails. *)
Definition refund_unreachable : Externals :=
  outside (Ok (response_of 200 (Ok (mkData 5000 None))))
          (Throw (ErrorObj "Failed to fetch"))
          no_funds
          (Ok None).

(** A mint that hands out every proof it is given, with an encoder that
    rejects what it is given. *)
Definition encoder_fails : Externals :=
  {| ext_fetch := ext_fetch mint_exact;
     ext_loadMint := ext_loadMint mint_exact;
     ext_send := ext_send mint_exact;
     ext_receive := ext_receive mint_exact;
     ext_btoa_json := fun _ _ => Throw (ErrorObj "Invalid character") |}.

Definition with_tokens : LocalStorage :=
  storage_of (Some (Text [proof_of 70 "s1"])) (Some "cashuAtok") None.

Definition unreadable_proofs : LocalStorage :=
  storage_of (Some Junk) (Some "cashuAtok") None.

(** Entries of the ledger. *)
Definition spent_30 : Ledger.TransactionHistory :=
  Ledger.mkTransaction Ledger.Spent 30 1700000000000 Ledger.Success
    (Some "qwen/qwen3-14b") (Some "Chat completion") (Some 70).

Definition import_5 : Ledger.TransactionHistory :=
  Ledger.mkTransaction Ledger.Import 5 1700000001000 Ledger.Success
    None None None.

(** A stand-in for the JSON codec of the ledger: the text lists the
    amounts, and is read back among the ledgers of the sample. *)
Definition toy_ledger_text (h : list Ledger.TransactionHistory) : string :=
  "[" ++ String.concat "," (map (fun t => show (Ledger.tx_amount t)) h) ++ "]".

Definition toy_ledgers : list (list Ledger.TransactionHistory) :=
  [[]; [spent_30]; [spent_30; import_5]; [import_5]].

Definition toy_codec : Ledger.HistoryCodec :=
  {| Ledger.JSON_stringify_history := toy_ledger_text;
     Ledger.JSON_parse_history := fun text =>
       match find (fun h => String.eqb (toy_ledger_text h) text) toy_ledgers with
       | Some h => Ok h
       | None => Throw (ErrorObj "Unexpected token in JSON")
       end |}.

(** A stand-in for [nip19.decode]: the bytes of an [nsec] are what follows
    the prefix. *)
Definition toy_decode (text : string) : Outcome Config.Decoded :=
  if String.prefix "nsec1" text then
    Ok (Config.DecodedNsec
          (list_byte_of_string (String.substring 5 (String.length text - 5) text)))
  else if String.prefix "npub1" text then Ok (Config.DecodedOther "npub")
  else Throw (ErrorObj "Unknown prefix").

Definition bob_config : Config.RoutstrConfig :=
  {| Config.cfg_nsec := "nsec1bob";
     Config.cfg_mintUrl := None;
     Config.cfg_baseUrl := Some "https://node.example";
     Config.cfg_defaultModel := None |}.

Definition bob_client : Config.ClientState :=
  {| Config.st_privateKey := bob_key;
     Config.st_publicKey := "bob";
     Config.st_config :=
       {| Config.nsec := "nsec1bob";
          Config.mintUrl := Config.DEFAULT_mintUrl;
          Config.baseUrl := "https://node.example/";
          Config.defaultModel := None |} |}.

End MoreSamples.

(* ================================================================== *)
(** ** Properties of the wallet functions *)
(* ================================================================== *)

Module CashuSpec.

Import Cashu.

#[local] Arguments String.append : simpl never.

(** Unfolding of the monad and of the storage accessors. *)
Ltac async_unfold :=
  unfold getItem_CASHU_PROOFS_KEY, setItem_CASHU_PROOFS_KEY,
         getItem_CURRENT_TOKEN_KEY, setItem_CURRENT_TOKEN_KEY,
         removeItem_CURRENT_TOKEN_KEY, response_json, JSON_parse,
         fetch, loadMint, wallet_send, wallet_receive,
         bind, try_catch, ret, throw, lift_outcome,
         read_storage, write_storage, localStorage_undefined in *;
  cbn [storage trace fst snd] in *.

(** One case split on the first scrutinee of the goal. *)
Ltac case_step :=
  match goal with
  | |- context [match ?x with _ => _ end] =>
      lazymatch x with
      | context [match _ with _ => _ end] => fail
      | _ => let E := fresh "E" in destruct x eqn:E
      end
  end.

Ltac case_step_in H :=
  match type of H with
  | context [match ?x with _ => _ end] =>
      lazymatch x with
      | context [match _ with _ => _ end] => fail
      | _ => let E := fresh "E" in destruct x eqn:E
      end
  end.

Lemma sum_amounts_from (l : list CashuProof) (acc : Z) :
  fold_left (fun total proof => total + amount proof) l acc
  = acc + sum_amounts l.
Proof.
  unfold sum_amounts. revert acc.
  induction l as [|p l IH]; intros acc; cbn.
  - lia.
  - rewrite IH. rewrite (IH (amount p)). lia.
Qed.

Lemma sum_amounts_app (P Q : list CashuProof) :
  sum_amounts (P ++ Q) = sum_amounts P + sum_amounts Q.
Proof.
  unfold sum_amounts at 1. rewrite fold_left_app.
  rewrite sum_amounts_from. fold (sum_amounts P). lia.
Qed.

(** Reading the balance leaves the world as it is and never throws. *)
Lemma getBalanceFromStoredProofs_pure (w : World) :
  exists b, getBalanceFromStoredProofs w = (Ok b, w).
Proof.
  unfold getBalanceFromStoredProofs. async_unfold.
  destruct w as [[st|] tr]; cbn; [|eexists; reflexivity].
  destruct (cashu_proofs st) as [[l|]|]; eexists; reflexivity.
Qed.

Lemma getBalanceFromStoredProofs_text (st : LocalStorage) (tr : list Call)
    (l : list CashuProof) :
  cashu_proofs st = Some (Text l) ->
  getBalanceFromStoredProofs {| storage := Some st; trace := tr |}
  = (Ok (sum_amounts l), {| storage := Some st; trace := tr |}).
Proof.
  intros H. unfold getBalanceFromStoredProofs. async_unfold.
  rewrite H. reflexivity.
Qed.

Lemma invalidateApiToken_run (st : LocalStorage) (tr : list Call) :
  invalidateApiToken {| storage := Some st; trace := tr |}
  = (Ok tt, {| storage := Some {| cashu_proofs := cashu_proofs st;
                                  current_token := None;
                                  transaction_history := transaction_history st;
                                  wrapped_cashu_tokens := wrapped_cashu_tokens st |};
               trace := tr |}).
Proof. reflexivity. Qed.

Section WithExternals.

Variable ext : Externals.

(** [refundRemainingBalance] catches everything. *)
Lemma refundRemainingBalance_total (mintUrl baseUrl : string)
    (token : option string) (w : World) :
  exists r w', refundRemainingBalance ext mintUrl baseUrl token w = (Ok r, w').
Proof.
  unfold refundRemainingBalance, try_catch, ret.
  match goal with |- context [match ?m w with _ => _ end] => destruct (m w) as [[r|e] w'] end;
    eauto.
Qed.

(** *** RefundCoordinator: [refundRemainingBalance] *)

(** X1. A refund that reports failure has written nothing to [localStorage]. *)
Lemma refundRemainingBalance_failure_keeps_storage
    (mintUrl baseUrl : string) (token : option string)
    (w w' : World) (r : OpResult) :
  refundRemainingBalance ext mintUrl baseUrl token w = (Ok r, w') ->
  success r = false ->
  storage w' = storage w.
Proof.
  destruct w as [[st|] tr]; unfold refundRemainingBalance; async_unfold;
    unfold invalidateApiToken; async_unfold; cbn.
  2: { intros H _. inversion H; reflexivity. }
  intros H Hfail.
  repeat (case_step_in H; cbn in *; async_unfold; cbn in *);
    inversion H; subst; cbn in *; try discriminate; reflexivity.
Qed.

(** C6. [refundRemainingBalance], called without an explicit token: with no
    ActiveToken cached it reports success and leaves the world as it is; when
    the refund request fails on the network (the request throws, or the
    answer is not ok) it reports [success: false] and [localStorage], with the
    cached ActiveToken, is as before; and whenever it reports success with an
    ActiveToken cached, the ActiveToken is gone from [localStorage] when it
    returns, whether the remote service returned a remainder token or not. *)
Theorem refundRemainingBalance_contract
    (mintUrl baseUrl : string) (st : LocalStorage) (tr : list Call) :
  let w := {| storage := Some st; trace := tr |} in
  (truthy_item (current_token st) = None ->
   refundRemainingBalance ext mintUrl baseUrl None w
   = (Ok (mkResult true None (Some "No token to refund")), w))
  /\
  (forall tok,
     current_token st = Some tok -> truthy tok = true ->
     truthy baseUrl = true ->
     (exists e, ext_fetch ext tr (refund_request baseUrl tok) = Throw e) \/
     (exists resp, ext_fetch ext tr (refund_request baseUrl tok) = Ok resp
                   /\ ok resp = false) ->
     exists r,
       refundRemainingBalance ext mintUrl baseUrl None w
       = (Ok r, {| storage := Some st;
                   trace := CallFetch (refund_request baseUrl tok) :: tr |})
       /\ success r = false)
  /\
  (forall tok r w',
     current_token st = Some tok -> truthy tok = true ->
     refundRemainingBalance ext mintUrl baseUrl None w = (Ok r, w') ->
     success r = true ->
     exists st', storage w' = Some st' /\ current_token st' = None).
Proof.
  intros w. subst w. split; [|split].
  - intros Hnone. unfold refundRemainingBalance. async_unfold. cbn.
    rewrite Hnone. reflexivity.
  - intros tok Htok Htruthy Hbase Hnet.
    unfold refundRemainingBalance. async_unfold. cbn.
    rewrite Htok. cbn. rewrite Htruthy. cbn.
    rewrite ?Htruthy, ?Hbase. cbn. rewrite ?Htruthy, ?Hbase. cbn.
    fold (refund_request baseUrl tok).
    destruct Hnet as [[e He]|[resp [Hresp Hok]]].
    + rewrite He. eexists; split; reflexivity.
    + rewrite Hresp. rewrite Hok. cbn. eexists; split; reflexivity.
  - intros tok r w' Htok Htruthy H Hsucc.
    unfold refundRemainingBalance in H. async_unfold.
    unfold invalidateApiToken in H. async_unfold. cbn in H.
    rewrite Htok in H. cbn in H. rewrite Htruthy in H. cbn in H.
    rewrite ?Htruthy in H. cbn in H.
    repeat (case_step_in H; cbn in *; async_unfold; cbn in *);
      inversion H; subst; cbn in *; try discriminate;
      eexists; split; reflexivity.
Qed.

(** *** BalanceAccountant: [fetchBalances] *)

(** [fetchBalances] never throws. *)
Lemma fetchBalances_total (mintUrl baseUrl : string) (w : World) :
  exists r w', fetchBalances ext mintUrl baseUrl w = (Ok r, w').
Proof.
  unfold fetchBalances. unfold bind at 1. unfold try_catch at 1.
  match goal with
  | |- context [match ?m w with _ => _ end] => destruct (m w) as [[a|e] w1]
  end.
  - unfold bind. destruct (getBalanceFromStoredProofs_pure w1) as [b Hb].
    rewrite Hb. unfold ret. eauto.
  - unfold ret at 1. unfold bind.
    destruct (getBalanceFromStoredProofs_pure w1) as [b Hb].
    rewrite Hb. unfold ret. eauto.
Qed.

(** C1, as the code has it.  When the balance query for the cached
    ActiveToken is answered with a positive balance, [fetchBalances] runs
    [refundRemainingBalance] right after the query and returns in the world
    that the refund left, with [apiBalance] 0 and with [proofsBalance] read
    from the ProofStore after the refund. *)
Theorem fetchBalances_positive_balance
    (mintUrl baseUrl : string) (st : LocalStorage) (tr : list Call)
    (tok : string) (resp : Response) (data : Data) :
  current_token st = Some tok ->
  truthy tok = true ->
  ext_fetch ext tr (balance_query baseUrl tok) = Ok resp ->
  ok resp = true ->
  json resp = Ok data ->
  balance data > 0 ->
  exists r w' b,
    refundRemainingBalance ext mintUrl baseUrl None
      {| storage := Some st;
         trace := CallFetch (balance_query baseUrl tok) :: tr |} = (Ok r, w')
    /\ getBalanceFromStoredProofs w' = (Ok b, w')
    /\ fetchBalances ext mintUrl baseUrl {| storage := Some st; trace := tr |}
       = (Ok (0, b * MSATS_PER_SAT), w').
Proof.
  intros Htok Htruthy Hresp Hok Hjson Hpos.
  destruct (refundRemainingBalance_total mintUrl baseUrl None
              {| storage := Some st;
                 trace := CallFetch (balance_query baseUrl tok) :: tr |})
    as [r [w' Hr]].
  destruct (getBalanceFromStoredProofs_pure w') as [b Hb].
  exists r, w', b. split; [exact Hr|]. split; [exact Hb|].
  unfold fetchBalances. async_unfold. cbn.
  rewrite Htok. cbn. rewrite Htruthy. cbn.
  fold (balance_query baseUrl tok). rewrite Hresp, Hok. cbn.
  rewrite Hjson.
  replace (balance data >? 0) with true by (symmetry; apply Z.gtb_lt; lia).
  rewrite Hr. rewrite Hb. reflexivity.
Qed.

(** C5. With an ActiveToken cached: when the balance query is answered with
    status 402, [fetchBalances] removes the ActiveToken from [localStorage],
    returns [apiBalance] 0 and does not throw; when the query fails in any
    other way (the request throws, the answer is not ok with another status,
    or its body cannot be read), [fetchBalances] returns [apiBalance] 0 as
    well, does not throw, and leaves [localStorage] as it was. *)
Theorem fetchBalances_remote_failure
    (mintUrl baseUrl : string) (st : LocalStorage) (tr : list Call)
    (tok : string) :
  current_token st = Some tok ->
  truthy tok = true ->
  let w := {| storage := Some st; trace := tr |} in
  let q := balance_query baseUrl tok in
  (forall resp,
     ext_fetch ext tr q = Ok resp -> status resp = 402 ->
     exists b,
       fetchBalances ext mintUrl baseUrl w
       = (Ok (0, b),
          {| storage :=
               Some {| cashu_proofs := cashu_proofs st;
                       current_token := None;
                       transaction_history := transaction_history st;
                       wrapped_cashu_tokens := wrapped_cashu_tokens st |};
             trace := CallFetch q :: tr |}))
  /\
  ((exists e, ext_fetch ext tr q = Throw e) \/
   (exists resp, ext_fetch ext tr q = Ok resp /\ ok resp = false
                 /\ status resp <> 402) \/
   (exists resp e, ext_fetch ext tr q = Ok resp /\ ok resp = true
                   /\ json resp = Throw e) ->
   exists b,
     fetchBalances ext mintUrl baseUrl w
     = (Ok (0, b), {| storage := Some st; trace := CallFetch q :: tr |})).
Proof.
  intros Htok Htruthy w q. subst w q. split.
  - intros resp Hresp H402.
    assert (Hok : ok resp = false) by (unfold ok; rewrite H402; reflexivity).
    match goal with
    | |- exists b, _ = (_, ?w1) =>
        destruct (getBalanceFromStoredProofs_pure w1) as [b Hb]
    end.
    exists (b * MSATS_PER_SAT).
    unfold fetchBalances. async_unfold. cbn.
    rewrite Htok. cbn. rewrite Htruthy. cbn.
    fold (balance_query baseUrl tok). rewrite Hresp, Hok, H402. cbn.
    unfold invalidateApiToken. async_unfold. cbn.
    rewrite Hb. reflexivity.
  - intros Hfail.
    match goal with
    | |- exists b, _ = (_, ?w1) =>
        destruct (getBalanceFromStoredProofs_pure w1) as [b Hb]
    end.
    exists (b * MSATS_PER_SAT).
    unfold fetchBalances. async_unfold. cbn.
    rewrite Htok. cbn. rewrite Htruthy. cbn.
    fold (balance_query baseUrl tok).
    destruct Hfail as [[e He]|[[resp [Hresp [Hok Hst]]]|[resp [e [Hresp [Hok He]]]]]].
    + rewrite He. rewrite Hb. reflexivity.
    + rewrite Hresp, Hok. cbn.
      apply Z.eqb_neq in Hst. rewrite Hst.
      rewrite Hb. reflexivity.
    + rewrite Hresp, Hok. cbn. rewrite He. rewrite Hb. reflexivity.
Qed.

(** *** TokenMinter: [getOrCreateApiToken] *)

(** C3. While an ActiveToken is cached, two calls of [getOrCreateApiToken] in
    a row, with any amounts, both return the cached string itself; the world
    after them is the world before them: nothing was sent to the mint (the
    trace has no new call, so no split) and [localStorage], hence the balance
    of the ProofStore, is as it was. *)
Theorem getOrCreateApiToken_cached_twice
    (mintUrl : string) (amt1 amt2 : option Q)
    (st : LocalStorage) (tr : list Call) (tok : string) :
  current_token st = Some tok ->
  truthy tok = true ->
  let w := {| storage := Some st; trace := tr |} in
  (r1 <- getOrCreateApiToken ext mintUrl amt1 ;;
   r2 <- getOrCreateApiToken ext mintUrl amt2 ;;
   ret (r1, r2)) w
  = (Ok (TokenString tok, TokenString tok), w).
Proof.
  intros Htok Htruthy w.
  assert (Hone : forall amt, getOrCreateApiToken ext mintUrl amt w
                             = (Ok (TokenString tok), w)).
  { intros amt. unfold getOrCreateApiToken. async_unfold.
    subst w. cbn. rewrite Htok. cbn. rewrite Htruthy. reflexivity. }
  unfold bind, ret. rewrite (Hone amt1), (Hone amt2). reflexivity.
Qed.

(** X16. With a proof set persisted, whatever it holds, the result is a token or
    [null], never [{ hasTokens: false }]. *)
Lemma getOrCreateApiToken_persisted_set
    (mintUrl : string) (amt : option Q)
    (st : LocalStorage) (tr : list Call) (text : Stored (list CashuProof)) :
  truthy_item (current_token st) = None ->
  cashu_proofs st = Some text ->
  fst (getOrCreateApiToken ext mintUrl amt {| storage := Some st; trace := tr |})
  <> Ok HasTokensFalse.
Proof.
  intros Htok Hproofs. unfold getOrCreateApiToken.
  unfold try_catch at 1. unfold bind at 1. unfold localStorage_undefined at 1.
  cbn [storage]. unfold bind at 1. unfold getItem_CURRENT_TOKEN_KEY, read_storage at 1.
  cbn [storage]. rewrite Htok.
  unfold bind at 1. unfold getItem_CASHU_PROOFS_KEY at 1. unfold read_storage at 1.
  cbn [storage]. rewrite Hproofs. unfold bind at 1.
  match goal with
  | |- context [generateApiToken ?e ?m ?a ?w0] =>
      destruct (generateApiToken e m a w0) as [[newToken|e0] w1]
  end; cbn; try discriminate.
  destruct (truthy_item newToken); cbn.
  - unfold bind, setItem_CURRENT_TOKEN_KEY, write_storage, ret.
    destruct (storage w1); cbn; discriminate.
  - discriminate.
Qed.

(** Where [localStorage] is undefined the result is [null]. *)
Lemma getOrCreateApiToken_without_localStorage
    (mintUrl : string) (amt : option Q) (tr : list Call) :
  getOrCreateApiToken ext mintUrl amt {| storage := None; trace := tr |}
  = (Ok Null, {| storage := None; trace := tr |}).
Proof. reflexivity. Qed.

(** X15. Where [localStorage] exists, no ActiveToken is cached and no proof set is
    persisted (the key is absent or holds the empty text),
    [getOrCreateApiToken] returns [{ hasTokens: false }]: it does not throw,
    does not return [null], sends nothing and stores nothing. *)
Theorem getOrCreateApiToken_nothing_persisted
    (mintUrl : string) (amt : option Q) (st : LocalStorage) (tr : list Call) :
  truthy_item (current_token st) = None ->
  cashu_proofs st = None ->
  let w := {| storage := Some st; trace := tr |} in
  getOrCreateApiToken ext mintUrl amt w = (Ok HasTokensFalse, w).
Proof.
  intros Htok Hproofs w. unfold getOrCreateApiToken. async_unfold.
  subst w. cbn. rewrite Htok. cbn. rewrite Hproofs. reflexivity.
Qed.

(** *** TokenMinter: [generateApiToken] *)

(** [generateApiToken] never throws. *)
Lemma generateApiToken_total (mintUrl : string) (amt : Q) (w : World) :
  exists r w', generateApiToken ext mintUrl amt w = (Ok r, w').
Proof.
  unfold generateApiToken, try_catch.
  match goal with
  | |- context [match ?m w with _ => _ end] => destruct (m w) as [[a|e] w1]
  end; [eauto|].
  destruct e as [m|]; [destruct (includes m "funds")|]; unfold ret; eauto.
Qed.

(** C2, as the code has it.  With a proof set persisted, when the mint fails
    (loading the mint or splitting the proofs throws, be it for insufficient
    funds or for any other reason) [generateApiToken] returns [null] and
    [localStorage], with the persisted proof set, is as before; the function
    itself never throws. *)
Theorem generateApiToken_mint_failure
    (mintUrl : string) (amt : Q) (st : LocalStorage) (tr : list Call)
    (proofs : list CashuProof) :
  cashu_proofs st = Some (Text proofs) ->
  let w := {| storage := Some st; trace := tr |} in
  let rounded := if is_fractional amt then Math_ceil amt else amt in
  (forall e,
     ext_loadMint ext tr mintUrl = Ok tt ->
     ext_send ext (CallLoadMint mintUrl :: tr) mintUrl rounded proofs = Throw e ->
     generateApiToken ext mintUrl amt w
     = (Ok None,
        {| storage := Some st;
           trace := CallSend mintUrl rounded proofs :: CallLoadMint mintUrl :: tr |}))
  /\
  (forall e,
     ext_loadMint ext tr mintUrl = Throw e ->
     generateApiToken ext mintUrl amt w
     = (Ok None, {| storage := Some st; trace := CallLoadMint mintUrl :: tr |})).
Proof.
  intros Hproofs w rounded. subst w rounded. split.
  - intros e Hload Hsend. unfold generateApiToken. async_unfold. cbn.
    rewrite Hproofs. cbn. rewrite Hload. cbn. rewrite Hsend.
    destruct e as [m|]; [destruct (includes m "funds")|]; reflexivity.
  - intros e Hload. unfold generateApiToken. async_unfold. cbn.
    rewrite Hproofs. cbn. rewrite Hload.
    destruct e as [m|]; [destruct (includes m "funds")|]; reflexivity.
Qed.

(** *** ProofStore: [importToken] *)

(** X17. An import that reports failure has written nothing to [localStorage]. *)
Lemma importToken_failure_keeps_storage
    (tokenString mintUrl : string) (w w' : World) (r : OpResult) :
  importToken ext tokenString mintUrl w = (Ok r, w') ->
  success r = false ->
  storage w' = storage w.
Proof.
  destruct w as [[st|] tr]; unfold importToken; async_unfold; cbn.
  2: { intros H _. inversion H; reflexivity. }
  intros H Hfail.
  repeat (case_step_in H; cbn in *; async_unfold; cbn in *);
    inversion H; subst; cbn in *; try discriminate; reflexivity.
Qed.

(** C9. With the proof set [P] persisted ([P] empty when nothing is
    persisted yet), an [importToken] that reports success has received a
    non-empty array [Q] from the mint and leaves the persisted set [P ++ Q],
    so that the stored balance goes from [sum P] to [sum P + sum Q] (the code
    compares no secrets: this holds whether or not [Q] shares secrets with
    [P]); and when the mint rejects the token as already spent, [importToken]
    reports [success: false] and [localStorage], with the persisted proof
    set, is as before. *)
Theorem importToken_contract
    (tokenString mintUrl : string) (st : LocalStorage) (tr : list Call) :
  let w := {| storage := Some st; trace := tr |} in
  (forall P r w',
     cashu_proofs st = Some (Text P) \/ (cashu_proofs st = None /\ P = []) ->
     importToken ext tokenString mintUrl w = (Ok r, w') ->
     success r = true ->
     exists Q st',
       ext_receive ext (CallLoadMint mintUrl :: tr) mintUrl tokenString
       = Ok (Some Q)
       /\ storage w' = Some st'
       /\ cashu_proofs st' = Some (Text (P ++ Q)%list)
       /\ current_token st' = current_token st
       /\ imported r = Some (sum_amounts Q)
       /\ getBalanceFromStoredProofs w = (Ok (sum_amounts P), w)
       /\ getBalanceFromStoredProofs w'
          = (Ok (sum_amounts P + sum_amounts Q), w'))
  /\
  (forall m,
     ext_loadMint ext tr mintUrl = Ok tt ->
     ext_receive ext (CallLoadMint mintUrl :: tr) mintUrl tokenString
     = Throw (ErrorObj m) ->
     includes m "already spent" = true ->
     importToken ext tokenString mintUrl w
     = (Ok (mkResult false None (Some "This token has already been spent")),
        {| storage := Some st;
           trace := CallReceive mintUrl tokenString :: CallLoadMint mintUrl :: tr |})).
Proof.
  intros w. subst w. split.
  - intros P r w' HP H Hsucc.
    unfold importToken in H. async_unfold. cbn in H.
    destruct (ext_loadMint ext tr mintUrl) as [[]|e0]; cbn in H.
    2: { case_step_in H; inversion H; subst; discriminate. }
    destruct (ext_receive ext (CallLoadMint mintUrl :: tr) mintUrl tokenString)
      as [[Q|]|e0]; cbn in H.
    + destruct Q as [|q Q]; cbn in H.
      * inversion H; subst; discriminate.
      * assert (Hbefore :
                  getBalanceFromStoredProofs {| storage := Some st; trace := tr |}
                  = (Ok (sum_amounts P), {| storage := Some st; trace := tr |})).
        { destruct HP as [HP|[HP HP0]].
          - apply getBalanceFromStoredProofs_text. exact HP.
          - subst P. unfold getBalanceFromStoredProofs. async_unfold. cbn.
            rewrite HP. reflexivity. }
        assert (Hstored :
                  match cashu_proofs st with
                  | Some text => JSON_parse text
                  | None => ret []
                  end = ret P).
        { destruct HP as [HP|[HP HP0]]; rewrite HP; [reflexivity|].
          subst P. reflexivity. }
        unfold JSON_parse, ret, throw in Hstored. rewrite Hstored in H.
        cbn in H. inversion H; subst; clear H.
        eexists (q :: Q), _.
        split; [reflexivity|]. split; [reflexivity|].
        cbn [cashu_proofs current_token imported].
        split; [reflexivity|]. split; [reflexivity|]. split; [reflexivity|].
        split.
        -- exact Hbefore.
        -- rewrite <- sum_amounts_app.
           apply getBalanceFromStoredProofs_text. reflexivity.
    + inversion H; subst; discriminate.
    + case_step_in H; inversion H; subst; discriminate.
  - intros m Hload Hrecv Hspent.
    unfold importToken. async_unfold. cbn.
    rewrite Hload. cbn. rewrite Hrecv. cbn. rewrite Hspent. reflexivity.
Qed.

End WithExternals.

End CashuSpec.

(* ================================================================== *)
(** ** Properties of the gift-wrap codec *)
(* ================================================================== *)

Module Nip60Spec.

Import Nip60.

Ltac async_unfold :=
  unfold getPublicKeyFromPrivateKey, finalizeEvent,
         WRAPPED_TOKENS_KEY_get, WRAPPED_TOKENS_KEY_set, JSON_parse,
         bind, try_catch, ret, throw, lift_outcome,
         read_storage, write_storage, localStorage_undefined in *;
  cbn [storage trace fst snd] in *.

Lemma tag_is_spec (tag : list string) (i : nat) (s : string) :
  tag_is tag i s = true <-> nth_error tag i = Some s.
Proof.
  unfold tag_is. destruct (nth_error tag i) as [x|].
  - rewrite String.eqb_eq. split; congruence.
  - split; discriminate.
Qed.

(** C8, as the code has it.  [isValidCashuGiftWrap] is true exactly when the
    kind is 1059, some tag has ["p"] as its first entry, and some tag has
    ["gift"] as its first entry and ["cashu"] as its second (further
    entries are allowed); it reads the kind and the tags only, so the result
    is the same whatever the content, the signature, the id, the author and
    the date are. *)
Theorem isValidCashuGiftWrap_structural (event : Event) :
  (isValidCashuGiftWrap event = true <->
   kind event = 1059
   /\ (exists tag, In tag (tags event) /\ nth_error tag 0 = Some "p")
   /\ (exists tag, In tag (tags event)
                   /\ nth_error tag 0 = Some "gift"
                   /\ nth_error tag 1 = Some "cashu"))
  /\
  (forall pk date c i s,
     isValidCashuGiftWrap
       {| kind := kind event; pubkey := pk; created_at := date;
          tags := tags event; content := c; ev_id := i; sig := s |}
     = isValidCashuGiftWrap event).
Proof.
  split; [|reflexivity].
  unfold isValidCashuGiftWrap.
  destruct (kind event =? 1059) eqn:Hk; cbn.
  - apply Z.eqb_eq in Hk. rewrite andb_true_iff, !existsb_exists. split.
    + intros [[t1 [Hin1 H1]] [t2 [Hin2 H2]]].
      apply tag_is_spec in H1. apply andb_true_iff in H2.
      destruct H2 as [H2 H3]. apply tag_is_spec in H2, H3.
      split; [exact Hk|]. split; [exists t1|exists t2]; auto.
    + intros [_ [[t1 [Hin1 H1]] [t2 [Hin2 [H2 H3]]]]]. split.
      * exists t1. split; [exact Hin1|]. apply tag_is_spec; exact H1.
      * exists t2. split; [exact Hin2|]. apply andb_true_iff.
        split; apply tag_is_spec; assumption.
  - apply Z.eqb_neq in Hk. split; [discriminate|]. intros [Hk' _]. contradiction.
Qed.

Section WithPrimitives.

Variable prim : Primitives.

(** [unwrapCashuToken] catches everything and touches nothing. *)
Lemma unwrapCashuToken_pure (event : Event) (sk : PrivateKey) (w : World) :
  exists g, unwrapCashuToken prim event sk w = (Ok g, w).
Proof.
  unfold unwrapCashuToken. async_unfold.
  repeat (match goal with
          | |- context [match ?x with _ => _ end] =>
              lazymatch x with
              | context [match _ with _ => _ end] => fail
              | _ => destruct x
              end
          end; cbn);
    eexists; reflexivity.
Qed.

(** An event none of whose [p] tags names the public key of the recipient
    unwraps to [null]. *)
Lemma unwrapCashuToken_not_for_us
    (event : Event) (sk : PrivateKey) (pk : string) (w : World) :
  getPublicKey prim sk = Ok pk ->
  (forall tag, In tag (tags event) ->
               nth_error tag 0 = Some "p" -> nth_error tag 1 <> Some pk) ->
  unwrapCashuToken prim event sk w = (Ok None, w).
Proof.
  intros Hpk Hnone. unfold unwrapCashuToken. async_unfold. rewrite Hpk.
  destruct (existsb (fun tag => tag_is tag 0 "p" && tag_is tag 1 pk) (tags event))
    eqn:Hex; [|reflexivity].
  apply existsb_exists in Hex. destruct Hex as [tag [Hin Htag]].
  apply andb_true_iff in Htag. destruct Htag as [H0 H1].
  apply tag_is_spec in H0, H1. exfalso. exact (Hnone tag Hin H0 H1).
Qed.

(** C7. Let the payload of a token and a note be what [JSON.stringify]
    gives, let [JSON.parse] read it back, and let [nip04.decrypt] with the
    recipient's private key and the sender's public key open what
    [nip04.encrypt] sealed with the sender's private key and the recipient's
    public key.  Then the event that [wrapCashuToken] returns for the
    recipient's public key unwraps, with the recipient's private key, to the
    very token and note that were wrapped; and any event unwraps to [null]
    with a private key whose public key is in none of its [p] tags, as does
    the wrapped event with a key whose public key is not the recipient's. *)
Theorem wrap_unwrap_roundtrip
    (Date_now : Z) (token : string) (note : option string)
    (sender recipient : PrivateKey) (recipientPub : string)
    (w w' : World) (event : Event) :
  let payload := JSON_stringify_gift prim token note in
  getPublicKey prim recipient = Ok recipientPub ->
  (forall senderPub c,
     getPublicKey prim sender = Ok senderPub ->
     nip04_encrypt prim sender recipientPub payload = Ok c ->
     nip04_decrypt prim recipient senderPub c = Ok payload) ->
  JSON_parse_gift prim payload = Ok (JObject (Some token) note) ->
  wrapCashuToken prim Date_now token recipientPub sender note w = (Ok event, w') ->
  w' = w
  /\ unwrapCashuToken prim event recipient w
     = (Ok (Some {| gw_token := Some token;
                    recipientPubkey := recipientPub;
                    gw_note := note |}), w)
  /\ (forall other otherPub,
        getPublicKey prim other = Ok otherPub ->
        otherPub <> recipientPub ->
        unwrapCashuToken prim event other w = (Ok None, w))
  /\ (forall (ev : Event) other otherPub,
        getPublicKey prim other = Ok otherPub ->
        (forall tag, In tag (tags ev) ->
                     nth_error tag 0 = Some "p" -> nth_error tag 1 <> Some otherPub) ->
        unwrapCashuToken prim ev other w = (Ok None, w)).
Proof.
  intros payload Hpk Hcipher Hjson Hwrap.
  unfold wrapCashuToken in Hwrap. async_unfold.
  destruct (getPublicKey prim sender) as [senderPub|e] eqn:Hsender;
    [|discriminate].
  destruct (nip04_encrypt prim sender recipientPub
              (JSON_stringify_gift prim token note)) as [c|e] eqn:Henc;
    [|discriminate].
  cbn in Hwrap. inversion Hwrap; subst w' event; clear Hwrap.
  split; [reflexivity|]. split; [|split].
  - unfold unwrapCashuToken. async_unfold. rewrite Hpk. cbn.
    rewrite String.eqb_refl. cbn.
    rewrite (Hcipher senderPub c eq_refl Henc). fold payload in Hjson.
    rewrite Hjson. reflexivity.
  - intros other otherPub Hother Hneq.
    apply unwrapCashuToken_not_for_us with (pk := otherPub); [exact Hother|].
    cbn. intros tag [Htag|[Htag|[]]] H0 H1; subst tag; cbn in *.
    + congruence.
    + discriminate.
  - intros ev other otherPub Hother Hnone.
    apply unwrapCashuToken_not_for_us with (pk := otherPub); assumption.
Qed.

End WithPrimitives.

End Nip60Spec.

(* ================================================================== *)
(** ** Properties of the gift-wrap methods of the client *)
(* ================================================================== *)

Module ClientSpec.

Import Nip60 Client.

(** Reading the sent gifts never throws and touches nothing. *)
Lemma getStoredWrappedTokens_pure (w : World) :
  exists gifts, getStoredWrappedTokens w = (Ok gifts, w).
Proof.
  unfold getStoredWrappedTokens. Nip60Spec.async_unfold.
  destruct w as [[st|] tr]; cbn; [|eexists; reflexivity].
  destruct (wrapped_cashu_tokens st) as [[l|]|]; eexists; reflexivity.
Qed.

(** What [removeWrappedToken] does where [localStorage] exists. *)
Lemma removeWrappedToken_run
    (tokenId : string) (st : LocalStorage) (tr : list Call) (gifts : list Event) :
  getStoredWrappedTokens {| storage := Some st; trace := tr |}
  = (Ok gifts, {| storage := Some st; trace := tr |}) ->
  removeWrappedToken tokenId {| storage := Some st; trace := tr |}
  = (Ok tt,
     {| storage :=
          Some {| cashu_proofs := cashu_proofs st;
                  current_token := current_token st;
                  transaction_history := transaction_history st;
                  wrapped_cashu_tokens :=
                    Some (Text (filter (fun token =>
                                          negb (String.eqb (ev_id token) tokenId))
                                       gifts)) |};
        trace := tr |}).
Proof.
  intros Hget. unfold removeWrappedToken.
  unfold try_catch, bind, localStorage_undefined. cbn [storage].
  rewrite Hget. reflexivity.
Qed.

Section Methods.

Variable prim : Primitives.
Variable this : RoutstrClient.

(** C10. When the client's [unwrapCashuToken] reports success for an event,
    the list of sent gifts read from [localStorage] afterwards is the list
    read before, without the entries that have the id of the event and in
    the same order; the other keys of [localStorage] hold what they held, and
    nothing was sent to the outside. *)
Theorem unwrapCashuToken_removes_sent_gift
    (event : Event) (w w' : World) (r : UnwrapResult) :
  Client.unwrapCashuToken prim this event w = (Ok r, w') ->
  u_success r = true ->
  exists before,
    getStoredWrappedTokens w = (Ok before, w)
    /\ getStoredWrappedTokens w'
       = (Ok (filter (fun gift => negb (String.eqb (ev_id gift) (ev_id event)))
                     before), w')
    /\ trace w' = trace w
    /\ match storage w, storage w' with
       | Some st, Some st' =>
           cashu_proofs st' = cashu_proofs st
           /\ current_token st' = current_token st
           /\ transaction_history st' = transaction_history st
       | None, None => True
       | _, _ => False
       end.
Proof.
  intros H Hsucc.
  destruct (getStoredWrappedTokens_pure w) as [before Hbefore].
  exists before. split; [exact Hbefore|].
  unfold Client.unwrapCashuToken in H. unfold try_catch at 1 in H.
  destruct (isValidCashuGiftWrap event); cbn in H.
  2: { unfold ret in H. inversion H; subst; discriminate. }
  unfold bind at 1 in H.
  destruct (Nip60Spec.unwrapCashuToken_pure prim event (privateKey this) w)
    as [g Hg].
  rewrite Hg in H. destruct g as [gift|].
  2: { unfold ret in H. inversion H; subst; discriminate. }
  destruct w as [[st|] tr].
  - unfold bind in H. rewrite (removeWrappedToken_run _ _ _ _ Hbefore) in H.
    unfold ret in H. inversion H; subst; clear H. cbn.
    split; [reflexivity|]. split; [reflexivity|]. auto.
  - cbn in H. inversion H; subst; clear H.
    cbn in Hbefore. inversion Hbefore; subst. cbn.
    split; [reflexivity|]. split; [reflexivity|]. exact I.
Qed.

End Methods.

End ClientSpec.

(* ================================================================== *)
(** ** The properties at the sample worlds *)
(* ================================================================== *)

Module AtSamples.

Import Cashu Nip60 Samples CashuSpec.

(** *** BalanceAccountant *)

(** C1, as the specification has it, fails: a query answered with 5000 msat
    for the cached token makes [fetchBalances] return [apiBalance] 0, not
    5000. *)
Lemma fetchBalances_does_not_report_observed_balance :
  ~ (forall (ext : Externals) (mintUrl baseUrl : string)
            (st : LocalStorage) (tr : list Call) (tok : string)
            (resp : Response) (data : Data),
       current_token st = Some tok ->
       truthy tok = true ->
       ext_fetch ext tr (balance_query baseUrl tok) = Ok resp ->
       ok resp = true ->
       json resp = Ok data ->
       balance data <> 0 ->
       exists proofsBalance w',
         fetchBalances ext mintUrl baseUrl {| storage := Some st; trace := tr |}
         = (Ok (balance data, proofsBalance), w')).
Proof.
  intros claim.
  destruct (claim remote_holds_5000 mintUrl baseUrl
              (storage_of (Some (Text [proof_of 70 "s1"])) (Some "cashuAtok") None)
              [] "cashuAtok"
              (response_of 200 (Ok (mkData 5000 None))) (mkData 5000 None)
              eq_refl eq_refl eq_refl eq_refl eq_refl)
    as [p [w' Hrun]].
  - cbn. discriminate.
  - vm_compute in Hrun. discriminate Hrun.
Qed.

Lemma fetchBalances_positive_balance_witness :
  exists r w' b,
    refundRemainingBalance remote_holds_5000 mintUrl baseUrl None
      {| storage := Some (storage_of (Some (Text [proof_of 70 "s1"]))
                                     (Some "cashuAtok") None);
         trace := [CallFetch (balance_query baseUrl "cashuAtok")] |} = (Ok r, w')
    /\ getBalanceFromStoredProofs w' = (Ok b, w')
    /\ fetchBalances remote_holds_5000 mintUrl baseUrl
         {| storage := Some (storage_of (Some (Text [proof_of 70 "s1"]))
                                        (Some "cashuAtok") None);
            trace := [] |}
       = (Ok (0, b * MSATS_PER_SAT), w').
Proof.
  apply (fetchBalances_positive_balance remote_holds_5000 mintUrl baseUrl
           (storage_of (Some (Text [proof_of 70 "s1"])) (Some "cashuAtok") None)
           [] "cashuAtok"
           (response_of 200 (Ok (mkData 5000 None))) (mkData 5000 None));
    reflexivity.
Defined.

Lemma fetchBalances_remote_failure_witness :
  (exists b,
     fetchBalances remote_exhausted mintUrl baseUrl
       {| storage := Some (storage_of None (Some "cashuAtok") None); trace := [] |}
     = (Ok (0, b),
        {| storage := Some (storage_of None None None);
           trace := [CallFetch (balance_query baseUrl "cashuAtok")] |}))
  /\
  (exists b,
     fetchBalances offline mintUrl baseUrl
       {| storage := Some (storage_of None (Some "cashuAtok") None); trace := [] |}
     = (Ok (0, b),
        {| storage := Some (storage_of None (Some "cashuAtok") None);
           trace := [CallFetch (balance_query baseUrl "cashuAtok")] |})).
Proof.
  split.
  - apply (proj1 (fetchBalances_remote_failure remote_exhausted mintUrl baseUrl
                    (storage_of None (Some "cashuAtok") None) [] "cashuAtok"
                    eq_refl eq_refl)
             (response_of 402 (Throw (ErrorObj "Unexpected token"))));
      reflexivity.
  - apply (proj2 (fetchBalances_remote_failure offline mintUrl baseUrl
                    (storage_of None (Some "cashuAtok") None) [] "cashuAtok"
                    eq_refl eq_refl)).
    left. exists (ErrorObj "Failed to fetch"). reflexivity.
Defined.

(** *** RefundCoordinator *)

Lemma refundRemainingBalance_contract_witness :
  refundRemainingBalance remote_holds_5000 mintUrl baseUrl None
    {| storage := Some (storage_of (Some (Text [proof_of 70 "s1"])) None None);
       trace := [] |}
  = (Ok (mkResult true None (Some "No token to refund")),
     {| storage := Some (storage_of (Some (Text [proof_of 70 "s1"])) None None);
        trace := [] |})
  /\
  (exists r,
     refundRemainingBalance offline mintUrl baseUrl None
       {| storage := Some (storage_of None (Some "cashuAtok") None); trace := [] |}
     = (Ok r,
        {| storage := Some (storage_of None (Some "cashuAtok") None);
           trace := [CallFetch (refund_request baseUrl "cashuAtok")] |})
     /\ success r = false)
  /\
  (exists st',
     storage (snd (refundRemainingBalance remote_holds_5000 mintUrl baseUrl None
                     {| storage := Some (storage_of None (Some "cashuAtok") None);
                        trace := [] |}))
     = Some st'
     /\ current_token st' = None).
Proof.
  split; [|split].
  - apply (proj1 (refundRemainingBalance_contract remote_holds_5000 mintUrl baseUrl
                    (storage_of (Some (Text [proof_of 70 "s1"])) None None) [])).
    reflexivity.
  - apply (proj1 (proj2 (refundRemainingBalance_contract offline mintUrl baseUrl
                           (storage_of None (Some "cashuAtok") None) []))
             "cashuAtok"); try reflexivity.
    left. exists (ErrorObj "Failed to fetch"). reflexivity.
  - destruct (proj2 (proj2 (refundRemainingBalance_contract remote_holds_5000
                              mintUrl baseUrl
                              (storage_of None (Some "cashuAtok") None) []))
                "cashuAtok"
                (mkResult true None (Some "Refund completed successfully"))
                {| storage := Some (storage_of (Some (Text [proof_of 5 "s9"])) None None);
                   trace := [CallReceive mintUrl "cashuArefund";
                             CallLoadMint mintUrl;
                             CallFetch (refund_request baseUrl "cashuAtok")] |}
                eq_refl eq_refl eq_refl eq_refl)
      as [st' [Hst' Htok]].
    exists st'. split; [exact Hst'|exact Htok].
Defined.

(** *** TokenMinter *)

(** C2, as the specification has it, fails: when the split fails with an
    error that is not about funds, [generateApiToken] returns [null] all the
    same. *)
Lemma generateApiToken_other_failure_is_null :
  ~ (forall (ext : Externals) (mintUrl : string) (amt : Q)
            (st : LocalStorage) (tr : list Call) (proofs : list CashuProof)
            (m : string),
       cashu_proofs st = Some (Text proofs) ->
       ext_loadMint ext tr mintUrl = Ok tt ->
       ext_send ext (CallLoadMint mintUrl :: tr) mintUrl
         (if is_fractional amt then Math_ceil amt else amt) proofs
       = Throw (ErrorObj m) ->
       includes m "funds" = false ->
       fst (generateApiToken ext mintUrl amt {| storage := Some st; trace := tr |})
       <> Ok None).
Proof.
  intros claim.
  apply (claim mint_down mintUrl (inject_Z 30)
               (storage_of (Some (Text [proof_of 100 "s1"])) None None) []
               [proof_of 100 "s1"] "Mint returned status 500");
    reflexivity.
Qed.

Lemma generateApiToken_mint_failure_witness :
  generateApiToken mint_spent mintUrl (61 # 2)
    {| storage := Some (storage_of (Some (Text [proof_of 20 "s1"])) None None);
       trace := [] |}
  = (Ok None,
     {| storage := Some (storage_of (Some (Text [proof_of 20 "s1"])) None None);
        trace := [CallSend mintUrl (inject_Z 31) [proof_of 20 "s1"];
                  CallLoadMint mintUrl] |})
  /\
  generateApiToken mint_down mintUrl (inject_Z 30)
    {| storage := Some (storage_of (Some (Text [proof_of 100 "s1"])) None None);
       trace := [] |}
  = (Ok None,
     {| storage := Some (storage_of (Some (Text [proof_of 100 "s1"])) None None);
        trace := [CallSend mintUrl (inject_Z 30) [proof_of 100 "s1"];
                  CallLoadMint mintUrl] |})
  /\
  generateApiToken offline mintUrl (inject_Z 30)
    {| storage := Some (storage_of (Some (Text [proof_of 100 "s1"])) None None);
       trace := [] |}
  = (Ok None,
     {| storage := Some (storage_of (Some (Text [proof_of 100 "s1"])) None None);
        trace := [CallLoadMint mintUrl] |}).
Proof.
  split; [|split].
  - apply (proj1 (generateApiToken_mint_failure mint_spent mintUrl (61 # 2)
                    (storage_of (Some (Text [proof_of 20 "s1"])) None None) []
                    [proof_of 20 "s1"] eq_refl)
             (ErrorObj "Not enough funds available to send"));
      reflexivity.
  - apply (proj1 (generateApiToken_mint_failure mint_down mintUrl (inject_Z 30)
                    (storage_of (Some (Text [proof_of 100 "s1"])) None None) []
                    [proof_of 100 "s1"] eq_refl)
             (ErrorObj "Mint returned status 500"));
      reflexivity.
  - apply (proj2 (generateApiToken_mint_failure offline mintUrl (inject_Z 30)
                    (storage_of (Some (Text [proof_of 100 "s1"])) None None) []
                    [proof_of 100 "s1"] eq_refl)
             (ErrorObj "Failed to fetch"));
      reflexivity.
Defined.

Lemma getOrCreateApiToken_cached_twice_witness :
  (r1 <- getOrCreateApiToken mint_down mintUrl (Some (inject_Z 30)) ;;
   r2 <- getOrCreateApiToken mint_down mintUrl None ;;
   ret (r1, r2))%async
    {| storage := Some (storage_of (Some (Text [proof_of 70 "s1"]))
                                   (Some "cashuAtok") None);
       trace := [] |}
  = (Ok (TokenString "cashuAtok", TokenString "cashuAtok"),
     {| storage := Some (storage_of (Some (Text [proof_of 70 "s1"]))
                                    (Some "cashuAtok") None);
        trace := [] |}).
Proof.
  apply (getOrCreateApiToken_cached_twice mint_down mintUrl
           (Some (inject_Z 30)) None
           (storage_of (Some (Text [proof_of 70 "s1"])) (Some "cashuAtok") None)
           [] "cashuAtok");
    reflexivity.
Defined.

(** C4 on the code.  A ProofStore of one proof of 50 sat and no ActiveToken:
    [getOrCreateApiToken] splits with a mint that hands out the whole proof
    and persists the empty array that is kept; the refund, with nothing left
    at the remote wallet, clears the ActiveToken.  The ProofStore is now
    empty and no ActiveToken is cached, and the next [getOrCreateApiToken]
    asks the mint to split nothing and returns [null], where the
    specification has [{ hasTokens: false }]. *)
Theorem getOrCreateApiToken_after_spending_everything :
  let w0 := {| storage := Some (storage_of (Some (Text [proof_of 50 "s1"]))
                                           None None);
               trace := [] |} in
  exists token w1 w2,
    getOrCreateApiToken mint_exact mintUrl None w0 = (Ok (TokenString token), w1)
    /\ refundRemainingBalance mint_exact mintUrl baseUrl None w1
       = (Ok (mkResult true None (Some "Refund completed successfully")), w2)
    /\ storage w2 = Some (storage_of (Some (Text [])) None None)
    /\ getBalanceFromStoredProofs w2 = (Ok 0, w2)
    /\ fst (getOrCreateApiToken mint_exact mintUrl None w2) = Ok Null.
Proof.
  intros w0. do 3 eexists.
  split; [vm_compute; reflexivity|].
  split; [vm_compute; reflexivity|].
  split; [reflexivity|]. split; reflexivity.
Qed.

(** With the ProofStore empty because the persisted array is empty, the
    result is not [{ hasTokens: false }]. *)
Lemma getOrCreateApiToken_empty_array_is_null :
  ~ (forall (ext : Externals) (mintUrl : string) (amt : option Q)
            (st : LocalStorage) (tr : list Call),
       truthy_item (current_token st) = None ->
       cashu_proofs st = None \/ cashu_proofs st = Some (Text []) ->
       fst (getOrCreateApiToken ext mintUrl amt {| storage := Some st; trace := tr |})
       = Ok HasTokensFalse).
Proof.
  intros claim.
  assert (H := claim mint_spent mintUrl None
                     (storage_of (Some (Text [])) None None) []
                     eq_refl (or_intror eq_refl)).
  vm_compute in H. discriminate H.
Qed.

Lemma getOrCreateApiToken_nothing_persisted_witness :
  getOrCreateApiToken mint_spent mintUrl None
    {| storage := Some (storage_of None None None); trace := [] |}
  = (Ok HasTokensFalse,
     {| storage := Some (storage_of None None None); trace := [] |}).
Proof.
  apply (getOrCreateApiToken_nothing_persisted mint_spent mintUrl None
           (storage_of None None None) []);
    reflexivity.
Defined.

(** *** ProofStore *)

Lemma importToken_contract_witness :
  (exists Q st',
     ext_receive remote_holds_5000 [CallLoadMint mintUrl] mintUrl "cashuAgift"
     = Ok (Some Q)
     /\ storage (snd (importToken remote_holds_5000 "cashuAgift" mintUrl
                        {| storage := Some (storage_of
                                              (Some (Text [proof_of 70 "s1"]))
                                              None None);
                           trace := [] |}))
        = Some st'
     /\ cashu_proofs st' = Some (Text ([proof_of 70 "s1"] ++ Q)%list))
  /\
  importToken mint_spent "cashuAgift" mintUrl
    {| storage := Some (storage_of (Some (Text [proof_of 70 "s1"])) None None);
       trace := [] |}
  = (Ok (mkResult false None (Some "This token has already been spent")),
     {| storage := Some (storage_of (Some (Text [proof_of 70 "s1"])) None None);
        trace := [CallReceive mintUrl "cashuAgift"; CallLoadMint mintUrl] |}).
Proof.
  split.
  - destruct (proj1 (importToken_contract remote_holds_5000 "cashuAgift" mintUrl
                       (storage_of (Some (Text [proof_of 70 "s1"])) None None) [])
                [proof_of 70 "s1"]
                (mkResult true (Some 5) (Some "Successfully imported 5 sats"))
                {| storage := Some (storage_of
                                      (Some (Text [proof_of 70 "s1"; proof_of 5 "s9"]))
                                      None None);
                   trace := [CallReceive mintUrl "cashuAgift";
                             CallLoadMint mintUrl] |}
                (or_introl eq_refl) eq_refl eq_refl)
      as [Q [st' [HQ [Hst [Hproofs _]]]]].
    exists Q, st'. split; [exact HQ|]. split; [exact Hst|exact Hproofs].
  - apply (proj2 (importToken_contract mint_spent "cashuAgift" mintUrl
                    (storage_of (Some (Text [proof_of 70 "s1"])) None None) [])
             "Token already spent.");
      reflexivity.
Defined.

(** *** GiftWrapCodec *)

Lemma wrap_unwrap_roundtrip_witness :
  let w := {| storage := Some (storage_of None None None); trace := [] |} in
  exists event,
    wrapCashuToken toy_prim 1700000000123 "cashuAabc" "bob" alice_key
      (Some "thanks") w = (Ok event, w)
    /\ unwrapCashuToken toy_prim event bob_key w
       = (Ok (Some {| gw_token := Some "cashuAabc";
                      recipientPubkey := "bob";
                      gw_note := Some "thanks" |}), w)
    /\ unwrapCashuToken toy_prim event carol_key w = (Ok None, w).
Proof.
  intros w.
  destruct (wrapCashuToken toy_prim 1700000000123 "cashuAabc" "bob" alice_key
              (Some "thanks") w) as [o w1] eqn:Hwrap.
  destruct o as [event|e]; [|vm_compute in Hwrap; discriminate Hwrap].
  destruct (Nip60Spec.wrap_unwrap_roundtrip toy_prim 1700000000123
              "cashuAabc" (Some "thanks") alice_key bob_key "bob" w w1 event)
    as [Hw [Hunwrap [Hother _]]].
  - reflexivity.
  - intros senderPub c _ Henc. vm_compute in Henc.
    inversion Henc; subst c. reflexivity.
  - reflexivity.
  - exact Hwrap.
  - exists event. subst w1. split; [reflexivity|]. split; [exact Hunwrap|].
    apply (Hother carol_key "carol"); [reflexivity|discriminate].
Defined.

(** C8, as the specification has it, fails in one direction: an event of
    kind 1059 with a [p] tag and the tag [gift, cashu, v2] is accepted, and
    none of its tags equals [gift, cashu]. *)
Lemma isValidCashuGiftWrap_accepts_longer_gift_tag :
  ~ (forall event : Event,
       isValidCashuGiftWrap event = true <->
       kind event = 1059
       /\ (exists tag, In tag (tags event) /\ nth_error tag 0 = Some "p")
       /\ In ["gift"; "cashu"] (tags event)).
Proof.
  intros claim.
  destruct (proj1 (claim (gift_event "ev1" "bob" ["gift"; "cashu"; "v2"])) eq_refl)
    as [_ [_ Hin]].
  cbn in Hin. destruct Hin as [H|[H|[]]]; discriminate H.
Qed.

Lemma isValidCashuGiftWrap_structural_witness :
  isValidCashuGiftWrap (gift_event "ev1" "bob" ["gift"; "cashu"; "v2"]) = true
  /\ (exists tag, In tag (tags (gift_event "ev2" "bob" ["gift"; "cashu"]))
                  /\ nth_error tag 0 = Some "gift"
                  /\ nth_error tag 1 = Some "cashu").
Proof.
  split.
  - apply (proj2 (proj1 (Nip60Spec.isValidCashuGiftWrap_structural
                           (gift_event "ev1" "bob" ["gift"; "cashu"; "v2"])))).
    split; [reflexivity|]. split.
    + exists ["p"; "bob"]. split; [left; reflexivity|reflexivity].
    + exists ["gift"; "cashu"; "v2"].
      split; [right; left; reflexivity|]. split; reflexivity.
  - apply (proj1 (proj1 (Nip60Spec.isValidCashuGiftWrap_structural
                           (gift_event "ev2" "bob" ["gift"; "cashu"])))).
    reflexivity.
Defined.

(** *** The client *)

Lemma unwrapCashuToken_removes_sent_gift_witness :
  let sent := [gift_event "ev1" "bob" ["gift"; "cashu"];
               gift_event "ev2" "carol" ["gift"; "cashu"];
               gift_event "ev1" "bob" ["gift"; "cashu"; "v2"];
               gift_event "ev3" "bob" ["gift"; "cashu"]] in
  let w := {| storage := Some (storage_of (Some (Text [proof_of 70 "s1"]))
                                          (Some "cashuAtok") (Some (Text sent)));
              trace := [] |} in
  exists r w',
    Client.unwrapCashuToken toy_prim bob (gift_event "ev1" "bob" ["gift"; "cashu"]) w
    = (Ok r, w')
    /\ Client.u_success r = true
    /\ getStoredWrappedTokens w'
       = (Ok [gift_event "ev2" "carol" ["gift"; "cashu"];
              gift_event "ev3" "bob" ["gift"; "cashu"]], w').
Proof.
  intros sent w.
  destruct (Client.unwrapCashuToken toy_prim bob
              (gift_event "ev1" "bob" ["gift"; "cashu"]) w) as [o w'] eqn:Hrun.
  destruct o as [r|e]; [|vm_compute in Hrun; discriminate Hrun].
  assert (Hsucc : Client.u_success r = true).
  { vm_compute in Hrun. inversion Hrun; reflexivity. }
  destruct (ClientSpec.unwrapCashuToken_removes_sent_gift toy_prim bob
              (gift_event "ev1" "bob" ["gift"; "cashu"]) w w' r Hrun Hsucc)
    as [before [Hbefore [Hafter _]]].
  exists r, w'. split; [reflexivity|]. split; [exact Hsucc|].
  rewrite Hafter. vm_compute in Hbefore. inversion Hbefore; subst before.
  reflexivity.
Defined.

End AtSamples.

(* ================================================================== *)
(** ** Facts on strings *)
(* ================================================================== *)

Module StringFacts.

Lemma length_append (s t : string) :
  String.length (s ++ t) = (String.length s + String.length t)%nat.
Proof. induction s as [|c s IH]; cbn; [reflexivity|]. rewrite IH. reflexivity. Qed.

Lemma substring_all (t : string) : String.substring 0 (String.length t) t = t.
Proof. induction t as [|c t IH]; cbn; [reflexivity|]. rewrite IH. reflexivity. Qed.

Lemma substring_tail (s t : string) :
  String.substring (String.length s) (String.length t) (s ++ t) = t.
Proof.
  induction s as [|c s IH]; cbn.
  - apply substring_all.
  - exact IH.
Qed.

(** [(s + suf).endsWith(suf)] *)
Lemma endsWith_append (s suf : string) : endsWith (s ++ suf) suf = true.
Proof.
  unfold endsWith. rewrite length_append.
  replace (String.length s + String.length suf - String.length suf)%nat
    with (String.length s) by lia.
  rewrite substring_tail, String.eqb_refl.
  replace (String.length suf <=? String.length s + String.length suf)%nat
    with true; [reflexivity|].
  symmetry. apply Nat.leb_le. lia.
Qed.

Lemma truthy_append_slash (s : string) : truthy (s ++ "/") = true.
Proof. destruct s; reflexivity. Qed.

Lemma truthy_nonempty (s : string) : s <> "" -> truthy s = true.
Proof. destruct s; [congruence|reflexivity]. Qed.

End StringFacts.

(* ================================================================== *)
(** ** Further properties of the wallet functions *)
(* ================================================================== *)

Module WalletFacts.

Import Cashu CashuSpec Shapes.

#[local] Arguments String.append : simpl never.
#[local] Arguments getBalanceFromStoredProofs : simpl never.
#[local] Arguments refundRemainingBalance : simpl never.

Lemma holds_balance (st : LocalStorage) (tr : list Call) (P : list CashuProof) :
  holds st P ->
  getBalanceFromStoredProofs {| storage := Some st; trace := tr |}
  = (Ok (sum_amounts P), {| storage := Some st; trace := tr |}).
Proof.
  intros [HP|[HP HP0]].
  - apply getBalanceFromStoredProofs_text. exact HP.
  - subst P. unfold getBalanceFromStoredProofs. async_unfold. cbn.
    rewrite HP. reflexivity.
Qed.

Lemma holds_parse (st : LocalStorage) (P : list CashuProof) :
  holds st P ->
  match cashu_proofs st with
  | Some text => JSON_parse text
  | None => ret []
  end = ret P.
Proof.
  intros [HP|[HP HP0]]; rewrite HP; [reflexivity|]. subst P. reflexivity.
Qed.

Lemma truthy_item_fixed (o : option string) (tok : string) :
  truthy_item o = Some tok -> truthy tok = true.
Proof.
  destruct o as [t|]; cbn; [|discriminate].
  destruct (truthy t) eqn:Ht; intros H; inversion H; subst; exact Ht.
Qed.

(** The case analysis of a run of [fetchBalances]: the refund, where it
    runs, returns; each branch ends by reading the stored balance. *)
Ltac fetchBalances_cases :=
  repeat first
    [ match goal with
      | |- context [refundRemainingBalance ?e ?m ?u ?t ?w0] =>
          let r := fresh "r" in
          let w2 := fresh "w" in
          let Hr := fresh "Hr" in
          destruct (refundRemainingBalance_total e m u t w0) as [r [w2 Hr]];
          rewrite Hr; cbn
      end
    | match goal with
      | |- context [getBalanceFromStoredProofs ?w0] =>
          let b := fresh "b" in
          let Hb := fresh "Hb" in
          destruct (getBalanceFromStoredProofs_pure w0) as [b Hb];
          rewrite Hb; cbn;
          eexists _, b, w0; split; [reflexivity|]; split; [|exact Hb]
      end
    | case_step; cbn ];
  lia.

Section WithExternals.

Variable ext : Externals.

(** The run of a refund whose remainder token the mint redeems. *)
Lemma refund_remainder_run
    (mintUrl baseUrl : string) (explicit : option string)
    (st : LocalStorage) (tr : list Call) (tok remainder : string)
    (resp : Response) (data : Data) (P Q : list CashuProof) :
  refund_token explicit st tok ->
  truthy baseUrl = true ->
  holds st P ->
  ext_fetch ext tr (refund_request baseUrl tok) = Ok resp ->
  ok resp = true ->
  json resp = Ok data ->
  truthy_item (d_token data) = Some remainder ->
  ext_loadMint ext (CallFetch (refund_request baseUrl tok) :: tr) mintUrl = Ok tt ->
  ext_receive ext (CallLoadMint mintUrl :: CallFetch (refund_request baseUrl tok) :: tr)
    mintUrl remainder = Ok (Some Q) ->
  Q <> [] ->
  refundRemainingBalance ext mintUrl baseUrl explicit
    {| storage := Some st; trace := tr |}
  = (Ok (mkResult true None (Some "Refund completed successfully")),
     {| storage := Some (refunded st (P ++ Q));
        trace := CallReceive mintUrl remainder :: CallLoadMint mintUrl
                 :: CallFetch (refund_request baseUrl tok) :: tr |}).
Proof.
  intros Htok Hbase HP Hresp Hok Hjson Hrem Hload Hrecv HQ.
  pose proof (holds_parse st P HP) as Hparse.
  unfold JSON_parse, ret, throw in Hparse.
  unfold refundRemainingBalance. async_unfold. cbn.
  destruct Htok as [He|[He Hc]]; rewrite He; cbn.
  - rewrite (truthy_item_fixed _ _ He). rewrite Hbase. cbn.
    fold (refund_request baseUrl tok). rewrite Hresp, Hok. cbn. rewrite Hjson.
    rewrite Hrem. cbn. rewrite Hload. cbn. rewrite Hrecv.
    destruct Q as [|q Q]; [congruence|]. cbn.
    rewrite Hparse. reflexivity.
  - rewrite Hc. rewrite Hbase. cbn.
    fold (refund_request baseUrl tok). rewrite Hresp, Hok. cbn. rewrite Hjson.
    rewrite Hrem. cbn. rewrite Hload. cbn. rewrite Hrecv.
    destruct Q as [|q Q]; [congruence|]. cbn.
    rewrite Hparse. reflexivity.
Qed.

(** X2. When the remote service returns a remainder token and the mint redeems
    it for the proofs [Q], the refund appends [Q] to the persisted set [P],
    clears the ActiveToken and reports success: the stored balance goes from
    [sum P] to [sum P + sum Q].  The token refunded is the explicit one, if
    one is given, else the cached one. *)
Theorem refundRemainingBalance_recovers_remainder
    (mintUrl baseUrl : string) (explicit : option string)
    (st : LocalStorage) (tr : list Call) (tok remainder : string)
    (resp : Response) (data : Data) (P Q : list CashuProof) :
  refund_token explicit st tok ->
  truthy baseUrl = true ->
  holds st P ->
  ext_fetch ext tr (refund_request baseUrl tok) = Ok resp ->
  ok resp = true ->
  json resp = Ok data ->
  truthy_item (d_token data) = Some remainder ->
  ext_loadMint ext (CallFetch (refund_request baseUrl tok) :: tr) mintUrl = Ok tt ->
  ext_receive ext (CallLoadMint mintUrl :: CallFetch (refund_request baseUrl tok) :: tr)
    mintUrl remainder = Ok (Some Q) ->
  Q <> [] ->
  let w := {| storage := Some st; trace := tr |} in
  exists w',
    refundRemainingBalance ext mintUrl baseUrl explicit w
    = (Ok (mkResult true None (Some "Refund completed successfully")), w')
    /\ storage w' = Some (refunded st (P ++ Q))
    /\ getBalanceFromStoredProofs w = (Ok (sum_amounts P), w)
    /\ getBalanceFromStoredProofs w' = (Ok (sum_amounts P + sum_amounts Q), w').
Proof.
  intros Htok Hbase HP Hresp Hok Hjson Hrem Hload Hrecv HQ w. subst w.
  eexists. split.
  - apply (refund_remainder_run mintUrl baseUrl explicit st tr tok remainder
             resp data P Q); assumption.
  - split; [reflexivity|]. split.
    + apply holds_balance; exact HP.
    + rewrite <- sum_amounts_app.
      apply getBalanceFromStoredProofs_text. reflexivity.
Qed.

(** X3. A refund that recovers nothing still reports success and clears the
    ActiveToken: when the remote service returns no remainder token, and
    also when it returns one for which the mint gives no proofs (an empty
    array or something that is not an array).  The persisted proof set is
    as before. *)
Theorem refundRemainingBalance_nothing_recovered
    (mintUrl baseUrl : string) (explicit : option string)
    (st : LocalStorage) (tr : list Call) (tok : string)
    (resp : Response) (data : Data) :
  refund_token explicit st tok ->
  truthy baseUrl = true ->
  ext_fetch ext tr (refund_request baseUrl tok) = Ok resp ->
  ok resp = true ->
  json resp = Ok data ->
  let w := {| storage := Some st; trace := tr |} in
  let asked := CallFetch (refund_request baseUrl tok) :: tr in
  (truthy_item (d_token data) = None ->
   refundRemainingBalance ext mintUrl baseUrl explicit w
   = (Ok (mkResult true None (Some "Refund completed successfully")),
      {| storage := Some (cleared st); trace := asked |}))
  /\
  (forall remainder result,
     truthy_item (d_token data) = Some remainder ->
     ext_loadMint ext asked mintUrl = Ok tt ->
     ext_receive ext (CallLoadMint mintUrl :: asked) mintUrl remainder = Ok result ->
     result = None \/ result = Some [] ->
     refundRemainingBalance ext mintUrl baseUrl explicit w
     = (Ok (mkResult true None (Some "Refund completed successfully")),
        {| storage := Some (cleared st);
           trace := CallReceive mintUrl remainder :: CallLoadMint mintUrl :: asked |})).
Proof.
  intros Htok Hbase Hresp Hok Hjson w asked. subst w asked.
  assert (Hhead :
    forall k : string -> Async OpResult,
      (storedToken <- match truthy_item explicit with
                      | Some t => ret (Some t)
                      | None => getItem_CURRENT_TOKEN_KEY
                      end ;;
       match truthy_item storedToken with
       | None => ret (mkResult true None (Some "No token to refund"))
       | Some storedToken => k storedToken
       end)%async {| storage := Some st; trace := tr |}
      = k tok {| storage := Some st; trace := tr |}).
  { intros k. async_unfold.
    destruct Htok as [He|[He Hc]]; rewrite He; cbn.
    - rewrite (truthy_item_fixed _ _ He). reflexivity.
    - rewrite Hc. reflexivity. }
  split.
  - intros Hnone. unfold refundRemainingBalance.
    unfold try_catch. unfold bind at 1. unfold localStorage_undefined at 1.
    cbn [storage]. rewrite Hhead. rewrite Hbase. cbn [negb].
    async_unfold. cbn. fold (refund_request baseUrl tok).
    rewrite Hresp, Hok. cbn. rewrite Hjson. rewrite Hnone. reflexivity.
  - intros remainder result Hrem Hload Hrecv Hres. unfold refundRemainingBalance.
    unfold try_catch. unfold bind at 1. unfold localStorage_undefined at 1.
    cbn [storage]. rewrite Hhead. rewrite Hbase. cbn [negb].
    async_unfold. cbn. fold (refund_request baseUrl tok).
    rewrite Hresp, Hok. cbn. rewrite Hjson. rewrite Hrem. cbn.
    rewrite Hload. cbn. rewrite Hrecv.
    destruct Hres; subst result; reflexivity.
Qed.

(** Where the proof set cannot be parsed, a refund that the remote service
    has granted and the mint has redeemed is reported as failed: nothing is
    written, the redeemed proofs are not stored and the ActiveToken stays
    cached. *)
Lemma refundRemainingBalance_unreadable_store
    (mintUrl baseUrl : string) (explicit : option string)
    (st : LocalStorage) (tr : list Call) (tok remainder : string)
    (resp : Response) (data : Data) (Q : list CashuProof) :
  refund_token explicit st tok ->
  truthy baseUrl = true ->
  cashu_proofs st = Some Junk ->
  ext_fetch ext tr (refund_request baseUrl tok) = Ok resp ->
  ok resp = true ->
  json resp = Ok data ->
  truthy_item (d_token data) = Some remainder ->
  ext_loadMint ext (CallFetch (refund_request baseUrl tok) :: tr) mintUrl = Ok tt ->
  ext_receive ext (CallLoadMint mintUrl :: CallFetch (refund_request baseUrl tok) :: tr)
    mintUrl remainder = Ok (Some Q) ->
  Q <> [] ->
  exists r,
    refundRemainingBalance ext mintUrl baseUrl explicit
      {| storage := Some st; trace := tr |}
    = (Ok r,
       {| storage := Some st;
          trace := CallReceive mintUrl remainder :: CallLoadMint mintUrl
                   :: CallFetch (refund_request baseUrl tok) :: tr |})
    /\ success r = false.
Proof.
  intros Htok Hbase Hjunk Hresp Hok Hjson Hrem Hload Hrecv HQ.
  unfold refundRemainingBalance. async_unfold. cbn.
  destruct Htok as [He|[He Hc]]; rewrite He; cbn;
    [rewrite (truthy_item_fixed _ _ He)|rewrite Hc];
    rewrite Hbase; cbn; fold (refund_request baseUrl tok);
    rewrite Hresp, Hok; cbn; rewrite Hjson; rewrite Hrem; cbn;
    rewrite Hload; cbn; rewrite Hrecv;
    (destruct Q as [|q Q]; [congruence|]); cbn; rewrite Hjunk;
    eexists; split; reflexivity.
Qed.

(** X4. The refund does not depend on a trailing slash of the base URL: with a
    non-empty base URL that does not end in a slash it does what it does
    with the slash appended. *)
Theorem refundRemainingBalance_trailing_slash
    (mintUrl baseUrl : string) (explicit : option string) (w : World) :
  baseUrl <> "" ->
  endsWith baseUrl "/" = false ->
  refundRemainingBalance ext mintUrl baseUrl explicit w
  = refundRemainingBalance ext mintUrl (baseUrl ++ "/") explicit w.
Proof.
  intros Hne Hslash. unfold refundRemainingBalance.
  rewrite (StringFacts.truthy_nonempty _ Hne).
  rewrite (StringFacts.truthy_append_slash baseUrl).
  rewrite Hslash, (StringFacts.endsWith_append baseUrl "/").
  reflexivity.
Qed.


(** *** [fetchBalances] *)

(** What every run of [fetchBalances] gives. *)
Lemma fetchBalances_shape (mintUrl baseUrl : string) (w : World) :
  exists a b w',
    fetchBalances ext mintUrl baseUrl w = (Ok (a, b * MSATS_PER_SAT), w')
    /\ a <= 0
    /\ getBalanceFromStoredProofs w' = (Ok b, w').
Proof.
  unfold fetchBalances. async_unfold. unfold invalidateApiToken. async_unfold.
  destruct w as [[st|] tr]; cbn; fetchBalances_cases.
Qed.

(** X6. [fetchBalances] never throws; the [apiBalance] it returns is never
    positive (a positive balance found at the remote wallet is reported as
    0), and the [proofsBalance] it returns is 1000 times the balance of the
    ProofStore as the call leaves it. *)
Theorem fetchBalances_never_positive (mintUrl baseUrl : string) (w : World) :
  exists apiBalance stored w',
    fetchBalances ext mintUrl baseUrl w
    = (Ok (apiBalance, stored * MSATS_PER_SAT), w')
    /\ apiBalance <= 0
    /\ getBalanceFromStoredProofs w' = (Ok stored, w').
Proof.
  unfold fetchBalances. async_unfold. unfold invalidateApiToken. async_unfold.
  destruct w as [[st|] tr]; cbn.
  - (* [localStorage] exists: by cases on the token, the answer and the body *)
    fetchBalances_cases.
  - (* [localStorage] is undefined: nothing is asked *)
    fetchBalances_cases.
Qed.

(** X7. Without a cached ActiveToken [fetchBalances] sends nothing: it returns
    [apiBalance] 0 and the stored balance in msat, and the world is as
    before; where [localStorage] is undefined both figures are 0. *)
Theorem fetchBalances_without_token (mintUrl baseUrl : string) (tr : list Call) :
  (forall st,
     truthy_item (current_token st) = None ->
     let w := {| storage := Some st; trace := tr |} in
     exists stored,
       getBalanceFromStoredProofs w = (Ok stored, w)
       /\ fetchBalances ext mintUrl baseUrl w
          = (Ok (0, stored * MSATS_PER_SAT), w))
  /\
  fetchBalances ext mintUrl baseUrl {| storage := None; trace := tr |}
  = (Ok (0, 0), {| storage := None; trace := tr |}).
Proof.
  split; [|reflexivity].
  intros st Hnone w. subst w.
  destruct (getBalanceFromStoredProofs_pure {| storage := Some st; trace := tr |})
    as [b Hb].
  exists b. split; [exact Hb|].
  unfold fetchBalances. async_unfold. cbn. rewrite Hnone. rewrite Hb. reflexivity.
Qed.

(** X8. A balance of 0 (or below) found at the remote wallet is returned as it
    is, nothing is refunded and the ActiveToken stays cached: the next
    [getOrCreateApiToken] hands out the same, empty, token again. *)
Theorem fetchBalances_empty_token_stays
    (mintUrl baseUrl : string) (amt : option Q)
    (st : LocalStorage) (tr : list Call) (tok : string)
    (resp : Response) (data : Data) :
  current_token st = Some tok ->
  truthy tok = true ->
  ext_fetch ext tr (balance_query baseUrl tok) = Ok resp ->
  ok resp = true ->
  json resp = Ok data ->
  balance data <= 0 ->
  let w' := {| storage := Some st;
               trace := CallFetch (balance_query baseUrl tok) :: tr |} in
  exists stored,
    fetchBalances ext mintUrl baseUrl {| storage := Some st; trace := tr |}
    = (Ok (balance data, stored * MSATS_PER_SAT), w')
    /\ getOrCreateApiToken ext mintUrl amt w' = (Ok (TokenString tok), w').
Proof.
  intros Htok Htruthy Hresp Hok Hjson Hle w'. subst w'.
  match goal with
  | |- exists s, _ = (_, ?w1) /\ _ =>
      destruct (getBalanceFromStoredProofs_pure w1) as [b Hb]
  end.
  exists b. split.
  - unfold fetchBalances. async_unfold. cbn.
    rewrite Htok. cbn. rewrite Htruthy. cbn.
    fold (balance_query baseUrl tok). rewrite Hresp, Hok. cbn. rewrite Hjson.
    replace (balance data >? 0) with false
      by (symmetry; rewrite Z.gtb_ltb; apply Z.ltb_ge; exact Hle).
    rewrite Hb. reflexivity.
  - unfold getOrCreateApiToken. async_unfold. cbn.
    rewrite Htok. cbn. rewrite Htruthy. reflexivity.
Qed.

(** X9. A positive balance found at the remote wallet and recovered by the
    refund is counted in [proofsBalance]: with the proof set [P] persisted
    and the refund redeemed for [Q], [fetchBalances] returns [apiBalance] 0
    and [proofsBalance] 1000 times [sum P + sum Q], and leaves [P ++ Q]
    persisted and no ActiveToken. *)
Theorem fetchBalances_refund_recovered
    (mintUrl baseUrl : string) (st : LocalStorage) (tr : list Call)
    (tok remainder : string) (resp refundResp : Response) (data refundData : Data)
    (P Q : list CashuProof) :
  current_token st = Some tok ->
  truthy tok = true ->
  truthy baseUrl = true ->
  holds st P ->
  ext_fetch ext tr (balance_query baseUrl tok) = Ok resp ->
  ok resp = true ->
  json resp = Ok data ->
  balance data > 0 ->
  let asked := CallFetch (balance_query baseUrl tok) :: tr in
  ext_fetch ext asked (refund_request baseUrl tok) = Ok refundResp ->
  ok refundResp = true ->
  json refundResp = Ok refundData ->
  truthy_item (d_token refundData) = Some remainder ->
  ext_loadMint ext (CallFetch (refund_request baseUrl tok) :: asked) mintUrl = Ok tt ->
  ext_receive ext
    (CallLoadMint mintUrl :: CallFetch (refund_request baseUrl tok) :: asked)
    mintUrl remainder = Ok (Some Q) ->
  Q <> [] ->
  fetchBalances ext mintUrl baseUrl {| storage := Some st; trace := tr |}
  = (Ok (0, (sum_amounts P + sum_amounts Q) * MSATS_PER_SAT),
     {| storage := Some (refunded st (P ++ Q));
        trace := CallReceive mintUrl remainder :: CallLoadMint mintUrl
                 :: CallFetch (refund_request baseUrl tok) :: asked |}).
Proof.
  intros Htok Htruthy Hbase HP Hresp Hok Hjson Hpos asked
         Hrresp Hrok Hrjson Hrem Hload Hrecv HQ.
  assert (Hrefund := refund_remainder_run mintUrl baseUrl None st asked tok
            remainder refundResp refundData P Q).
  unfold refund_token in Hrefund. cbn in Hrefund.
  rewrite Htok in Hrefund. cbn in Hrefund. rewrite Htruthy in Hrefund.
  specialize (Hrefund (or_intror (conj eq_refl eq_refl)) Hbase HP Hrresp Hrok
                      Hrjson Hrem Hload Hrecv HQ).
  unfold fetchBalances. async_unfold. cbn.
  rewrite Htok. cbn. rewrite Htruthy. cbn.
  fold (balance_query baseUrl tok). rewrite Hresp, Hok. cbn. rewrite Hjson.
  replace (balance data >? 0) with true by (symmetry; apply Z.gtb_lt; lia).
  fold asked. rewrite Hrefund.
  rewrite (getBalanceFromStoredProofs_text (refunded st (P ++ Q)) _ (P ++ Q) eq_refl).
  rewrite sum_amounts_app. reflexivity.
Qed.

(** X10. A positive balance found at the remote wallet whose refund fails on the
    network is counted nowhere: [fetchBalances] returns [apiBalance] 0 and
    the [proofsBalance] of the unchanged ProofStore, and the ActiveToken
    stays cached. *)
Theorem fetchBalances_refund_failed
    (mintUrl baseUrl : string) (st : LocalStorage) (tr : list Call)
    (tok : string) (resp : Response) (data : Data) (e : Thrown)
    (P : list CashuProof) :
  current_token st = Some tok ->
  truthy tok = true ->
  truthy baseUrl = true ->
  holds st P ->
  ext_fetch ext tr (balance_query baseUrl tok) = Ok resp ->
  ok resp = true ->
  json resp = Ok data ->
  balance data > 0 ->
  ext_fetch ext (CallFetch (balance_query baseUrl tok) :: tr)
    (refund_request baseUrl tok) = Throw e ->
  fetchBalances ext mintUrl baseUrl {| storage := Some st; trace := tr |}
  = (Ok (0, sum_amounts P * MSATS_PER_SAT),
     {| storage := Some st;
        trace := CallFetch (refund_request baseUrl tok)
                 :: CallFetch (balance_query baseUrl tok) :: tr |}).
Proof.
  intros Htok Htruthy Hbase HP Hresp Hok Hjson Hpos Hfail.
  unfold fetchBalances. async_unfold. cbn.
  rewrite Htok. cbn. rewrite Htruthy. cbn.
  fold (balance_query baseUrl tok). rewrite Hresp, Hok. cbn. rewrite Hjson.
  replace (balance data >? 0) with true by (symmetry; apply Z.gtb_lt; lia).
  unfold refundRemainingBalance. async_unfold. cbn.
  rewrite Htok. cbn. rewrite Htruthy. cbn. rewrite Hbase. cbn.
  fold (refund_request baseUrl tok). rewrite Hfail.
  rewrite (holds_balance st _ P HP). reflexivity.
Qed.

(** *** [generateApiToken] and [getOrCreateApiToken] *)

Lemma truthy_cashuA (encoded : string) : truthy ("cashuA" ++ encoded) = true.
Proof. reflexivity. Qed.

(** The amount asked of the mint. *)
Lemma rounded_integral (amt : Q) :
  is_fractional amt = false -> amt == inject_Z (Qceiling amt).
Proof.
  unfold is_fractional. intros H. apply negb_false_iff in H.
  apply Z.eqb_eq in H.
  assert (Hk : amt == inject_Z (Qnum amt / Zpos (Qden amt))).
  { unfold Qeq. cbn. rewrite Z.mul_1_r.
    rewrite (Z.div_mod (Qnum amt) (Zpos (Qden amt))) at 1 by discriminate.
    rewrite H. lia. }
  rewrite Hk at 2. rewrite Qceiling_Z. exact Hk.
Qed.


(** X12. When the split hands out proofs but the token cannot be encoded, the
    persisted proof set has already been replaced by what the mint keeps:
    [generateApiToken] returns [null] and the proofs handed out are neither
    persisted nor returned. *)
Theorem generateApiToken_encoding_failure
    (mintUrl : string) (amt : Q) (st : LocalStorage) (tr : list Call)
    (P outgoing : list CashuProof) (r : SendResult) (e : Thrown) :
  cashu_proofs st = Some (Text P) ->
  let rounded := if is_fractional amt then Math_ceil amt else amt in
  ext_loadMint ext tr mintUrl = Ok tt ->
  ext_send ext (CallLoadMint mintUrl :: tr) mintUrl rounded P = Ok r ->
  send r = Some outgoing ->
  outgoing <> [] ->
  ext_btoa_json ext mintUrl outgoing = Throw e ->
  generateApiToken ext mintUrl amt {| storage := Some st; trace := tr |}
  = (Ok None,
     {| storage := Some {| cashu_proofs := Some (Text (keep r));
                           current_token := current_token st;
                           transaction_history := transaction_history st;
                           wrapped_cashu_tokens := wrapped_cashu_tokens st |};
        trace := CallSend mintUrl rounded P :: CallLoadMint mintUrl :: tr |}).
Proof.
  intros HP rounded Hload Hsend Hout Hne Henc. subst rounded.
  unfold generateApiToken. async_unfold. cbn.
  rewrite HP. cbn. rewrite Hload. cbn. rewrite Hsend. rewrite Hout.
  destruct outgoing as [|p outgoing]; [congruence|]. cbn. rewrite Henc.
  destruct e as [m|]; [destruct (includes m "funds")|]; reflexivity.
Qed.

(** When the split hands out nothing, [generateApiToken] returns [null] and
    the persisted proof set is left as it was, whatever the mint says it
    keeps. *)
Lemma generateApiToken_nothing_handed_out
    (mintUrl : string) (amt : Q) (st : LocalStorage) (tr : list Call)
    (P : list CashuProof) (r : SendResult) :
  cashu_proofs st = Some (Text P) ->
  let rounded := if is_fractional amt then Math_ceil amt else amt in
  ext_loadMint ext tr mintUrl = Ok tt ->
  ext_send ext (CallLoadMint mintUrl :: tr) mintUrl rounded P = Ok r ->
  send r = None \/ send r = Some [] ->
  generateApiToken ext mintUrl amt {| storage := Some st; trace := tr |}
  = (Ok None,
     {| storage := Some st;
        trace := CallSend mintUrl rounded P :: CallLoadMint mintUrl :: tr |}).
Proof.
  intros HP rounded Hload Hsend Hout. subst rounded.
  unfold generateApiToken. async_unfold. cbn.
  rewrite HP. cbn. rewrite Hload. cbn. rewrite Hsend.
  destruct Hout as [Hout|Hout]; rewrite Hout; reflexivity.
Qed.

(** X13. With no ActiveToken cached and a proof set [P] persisted, a split that
    hands out proofs makes [getOrCreateApiToken] persist what the mint
    keeps in place of [P], return the encoded token and cache it as
    ActiveToken; a second call then returns the same token and leaves the
    world, trace included, as the first call left it. *)
Theorem getOrCreateApiToken_creates_and_caches
    (mintUrl : string) (amt1 amt2 : option Q) (st : LocalStorage) (tr : list Call)
    (P outgoing : list CashuProof) (r : SendResult) (encoded : string) :
  truthy_item (current_token st) = None ->
  cashu_proofs st = Some (Text P) ->
  let asked := match amt1 with Some a => a | None => DEFAULT_TOKEN_AMOUNT end in
  let rounded := if is_fractional asked then Math_ceil asked else asked in
  ext_loadMint ext tr mintUrl = Ok tt ->
  ext_send ext (CallLoadMint mintUrl :: tr) mintUrl rounded P = Ok r ->
  send r = Some outgoing ->
  outgoing <> [] ->
  ext_btoa_json ext mintUrl outgoing = Ok encoded ->
  let w' := {| storage := Some {| cashu_proofs := Some (Text (keep r));
                                  current_token := Some ("cashuA" ++ encoded);
                                  transaction_history := transaction_history st;
                                  wrapped_cashu_tokens := wrapped_cashu_tokens st |};
               trace := CallSend mintUrl rounded P :: CallLoadMint mintUrl :: tr |} in
  getOrCreateApiToken ext mintUrl amt1 {| storage := Some st; trace := tr |}
  = (Ok (TokenString ("cashuA" ++ encoded)), w')
  /\ getOrCreateApiToken ext mintUrl amt2 w' = (Ok (TokenString ("cashuA" ++ encoded)), w').
Proof.
  intros Hnone HP asked rounded Hload Hsend Hout Hne Henc w'.
  subst asked rounded w'. split.
  - unfold getOrCreateApiToken, generateApiToken. async_unfold. cbn.
    rewrite Hnone. cbn. rewrite HP. cbn. rewrite HP. cbn.
    rewrite Hload. cbn. rewrite Hsend. rewrite Hout.
    destruct outgoing as [|p outgoing]; [congruence|]. cbn. rewrite Henc. cbn.
    rewrite truthy_cashuA. reflexivity.
  - unfold getOrCreateApiToken. async_unfold. cbn.
    rewrite truthy_cashuA. reflexivity.
Qed.

(** X14. Whenever [getOrCreateApiToken] returns a token, that token is non-empty
    and is the ActiveToken cached in [localStorage] when the call
    returns. *)
Theorem getOrCreateApiToken_returns_cached
    (mintUrl : string) (amt : option Q) (w w' : World) (tok : string) :
  getOrCreateApiToken ext mintUrl amt w = (Ok (TokenString tok), w') ->
  truthy tok = true
  /\ exists st', storage w' = Some st' /\ current_token st' = Some tok.
Proof.
  unfold getOrCreateApiToken. async_unfold. destruct w as [[st|] tr]; cbn.
  2: { intros H; inversion H. }
  destruct (truthy_item (current_token st)) as [t|] eqn:Ht; cbn.
  - intros H. inversion H; subst. split.
    + apply (truthy_item_fixed _ _ Ht).
    + eexists. split; [reflexivity|].
      cbn. destruct (current_token st) as [c|]; cbn in Ht; [|discriminate].
      destruct (truthy c); inversion Ht; reflexivity.
  - destruct (cashu_proofs st) as [text|]; cbn; [|intros H; inversion H].
    match goal with
    | |- context [generateApiToken ?e ?m ?a ?w0] =>
        destruct (generateApiToken e m a w0) as [[newToken|e0] [[st1|] tr1]]
    end; cbn; try (intros H; inversion H; fail).
    + destruct (truthy_item newToken) as [t|] eqn:Hn; cbn;
        intros H; inversion H; subst. split.
      * apply (truthy_item_fixed _ _ Hn).
      * eexists. split; reflexivity.
    + destruct (truthy_item newToken) as [t|] eqn:Hn; cbn;
        intros H; inversion H.
Qed.

(** *** [importToken] *)

(** X18. Where the proof set cannot be parsed, an import that the mint has
    redeemed is reported as failed: nothing is written and the redeemed
    proofs are not stored. *)
Theorem importToken_unreadable_store
    (tokenString mintUrl : string) (st : LocalStorage) (tr : list Call)
    (Q0 : list CashuProof) :
  cashu_proofs st = Some Junk ->
  ext_loadMint ext tr mintUrl = Ok tt ->
  ext_receive ext (CallLoadMint mintUrl :: tr) mintUrl tokenString = Ok (Some Q0) ->
  Q0 <> [] ->
  exists r,
    importToken ext tokenString mintUrl {| storage := Some st; trace := tr |}
    = (Ok r,
       {| storage := Some st;
          trace := CallReceive mintUrl tokenString :: CallLoadMint mintUrl :: tr |})
    /\ success r = false.
Proof.
  intros Hjunk Hload Hrecv Hne.
  unfold importToken. async_unfold. cbn.
  rewrite Hload. cbn. rewrite Hrecv.
  destruct Q0 as [|q Q0]; [congruence|]. cbn. rewrite Hjunk. cbn.
  destruct (includes "Unexpected token in JSON" "already spent");
    eexists; split; reflexivity.
Qed.

(** A token for which the mint gives no proofs (an empty array, or
    something that is not an array) is reported as having an invalid
    format; [localStorage] is as before. *)
Lemma importToken_no_proofs
    (tokenString mintUrl : string) (st : LocalStorage) (tr : list Call)
    (result : option (list CashuProof)) :
  ext_loadMint ext tr mintUrl = Ok tt ->
  ext_receive ext (CallLoadMint mintUrl :: tr) mintUrl tokenString = Ok result ->
  result = None \/ result = Some [] ->
  importToken ext tokenString mintUrl {| storage := Some st; trace := tr |}
  = (Ok (mkResult false None (Some "Invalid token format")),
     {| storage := Some st;
        trace := CallReceive mintUrl tokenString :: CallLoadMint mintUrl :: tr |}).
Proof.
  intros Hload Hrecv Hres.
  unfold importToken. async_unfold. cbn.
  rewrite Hload. cbn. rewrite Hrecv.
  destruct Hres; subst result; reflexivity.
Qed.

End WithExternals.

End WalletFacts.

(* ================================================================== *)
(** ** Further properties of the gift-wrap functions *)
(* ================================================================== *)

Module GiftFacts.

Import Nip60 Client Shapes.

(** The sent gifts read as a list where the key can be read. *)
Lemma readable_get (st : LocalStorage) (tr : list Call) (gifts : list Event) :
  readable st gifts ->
  getStoredWrappedTokens {| storage := Some st; trace := tr |}
  = (Ok gifts, {| storage := Some st; trace := tr |}).
Proof.
  unfold getStoredWrappedTokens. Nip60Spec.async_unfold. cbn.
  intros [H|[H H0]]; rewrite H; [reflexivity|]. subst gifts. reflexivity.
Qed.

Lemma filter_twice {A} (f : A -> bool) (l : list A) :
  filter f (filter f l) = filter f l.
Proof.
  induction l as [|a l IH]; cbn; [reflexivity|].
  destruct (f a) eqn:E; cbn; [rewrite E, IH|]; auto.
Qed.

(** X19. [storeWrappedToken] appends: where the list of sent gifts can be read
    (or nothing is stored yet), the list read after storing an event is the
    list read before with the event at its end, and the other keys of
    [localStorage] are untouched. *)
Theorem storeWrappedToken_appends
    (event : Event) (st : LocalStorage) (tr : list Call) (gifts : list Event) :
  readable st gifts ->
  exists w',
    storeWrappedToken event {| storage := Some st; trace := tr |} = (Ok tt, w')
    /\ w' = {| storage := Some (with_gifts st (gifts ++ [event])); trace := tr |}
    /\ getStoredWrappedTokens w' = (Ok (gifts ++ [event])%list, w').
Proof.
  intros Hread. eexists. split; [|split; [reflexivity|]].
  - unfold storeWrappedToken. Nip60Spec.async_unfold. cbn.
    destruct Hread as [H|[H H0]]; rewrite H; cbn; [reflexivity|].
    subst gifts. reflexivity.
  - apply readable_get. left. reflexivity.
Qed.

(** X20. On a list of sent gifts that cannot be parsed the two writers differ:
    [storeWrappedToken] writes nothing, so the event is not recorded, while
    [removeWrappedToken] replaces the unreadable text by the empty list. *)
Theorem unreadable_gift_list
    (event : Event) (tokenId : string) (st : LocalStorage) (tr : list Call) :
  wrapped_cashu_tokens st = Some Junk ->
  let w := {| storage := Some st; trace := tr |} in
  storeWrappedToken event w = (Ok tt, w)
  /\ removeWrappedToken tokenId w
     = (Ok tt, {| storage := Some (with_gifts st []); trace := tr |}).
Proof.
  intros Hjunk w. subst w. split.
  - unfold storeWrappedToken. Nip60Spec.async_unfold. cbn. rewrite Hjunk.
    reflexivity.
  - unfold removeWrappedToken, getStoredWrappedTokens. Nip60Spec.async_unfold.
    cbn. rewrite Hjunk. reflexivity.
Qed.

(** X21. [removeWrappedToken] removes every sent gift with the given id and
    keeps the others in order; afterwards no stored gift has that id, and
    removing again changes nothing. *)
Theorem removeWrappedToken_removes_all
    (tokenId : string) (st : LocalStorage) (tr : list Call) (gifts : list Event) :
  readable st gifts ->
  let kept := filter (fun gift => negb (String.eqb (ev_id gift) tokenId)) gifts in
  let w' := {| storage := Some (with_gifts st kept); trace := tr |} in
  removeWrappedToken tokenId {| storage := Some st; trace := tr |} = (Ok tt, w')
  /\ getStoredWrappedTokens w' = (Ok kept, w')
  /\ (forall gift, In gift kept -> ev_id gift <> tokenId /\ In gift gifts)
  /\ (forall gift, In gift gifts -> ev_id gift <> tokenId -> In gift kept)
  /\ removeWrappedToken tokenId w' = (Ok tt, w').
Proof.
  intros Hread kept w'.
  assert (Hget' : getStoredWrappedTokens w' = (Ok kept, w')).
  { apply readable_get. left. reflexivity. }
  split; [|split; [exact Hget'|split; [|split]]].
  - rewrite (ClientSpec.removeWrappedToken_run tokenId st tr gifts
               (readable_get st tr gifts Hread)).
    reflexivity.
  - intros gift Hin. apply filter_In in Hin. destruct Hin as [Hin Hid].
    split; [|exact Hin].
    apply negb_true_iff in Hid. apply String.eqb_neq in Hid. exact Hid.
  - intros gift Hin Hid. apply filter_In. split; [exact Hin|].
    apply negb_true_iff. apply String.eqb_neq. exact Hid.
  - subst w'.
    rewrite (ClientSpec.removeWrappedToken_run tokenId _ tr kept Hget').
    unfold with_gifts. cbn. subst kept. rewrite filter_twice. reflexivity.
Qed.

Section WithPrimitives.

Variable prim : Primitives.

(** Wrapping touches nothing, whether it returns or throws. *)
Lemma wrap_world
    (Date_now : Z) (token recipientPub : string) (sender : PrivateKey)
    (note : option string) (w w' : World) (o : Outcome Event) :
  Nip60.wrapCashuToken prim Date_now token recipientPub sender note w = (o, w') ->
  w' = w.
Proof.
  unfold Nip60.wrapCashuToken. Nip60Spec.async_unfold.
  destruct (getPublicKey prim sender); [|intros H; inversion H; reflexivity].
  destruct (nip04_encrypt prim sender recipientPub
              (JSON_stringify_gift prim token note));
    cbn; intros H; inversion H; reflexivity.
Qed.

(** X22. Every event that [wrapCashuToken] returns passes
    [isValidCashuGiftWrap]: it has kind 1059, the [p] tag of the recipient
    followed by the tag [gift, cashu], the public key of the sender as
    author and the date in seconds; wrapping touches nothing. *)
Theorem wrapCashuToken_is_valid
    (Date_now : Z) (token recipientPub : string) (sender : PrivateKey)
    (note : option string) (w w' : World) (event : Event) :
  Nip60.wrapCashuToken prim Date_now token recipientPub sender note w = (Ok event, w') ->
  w' = w
  /\ isValidCashuGiftWrap event = true
  /\ kind event = 1059
  /\ tags event = [["p"; recipientPub]; ["gift"; "cashu"]]
  /\ getPublicKey prim sender = Ok (pubkey event)
  /\ created_at event = Date_now / 1000
  /\ nip04_encrypt prim sender recipientPub (JSON_stringify_gift prim token note)
     = Ok (content event).
Proof.
  unfold Nip60.wrapCashuToken. Nip60Spec.async_unfold.
  destruct (getPublicKey prim sender) as [senderPub|e]; [|discriminate].
  destruct (nip04_encrypt prim sender recipientPub
              (JSON_stringify_gift prim token note)) as [c|e]; [|discriminate].
  cbn. intros H. inversion H; subst. cbn. repeat split; reflexivity.
Qed.

(** X23. [unwrapCashuToken] gives a gift exactly when the key has a public key
    that some [p] tag of the event names, some tag starts with [gift],
    [cashu], the content decrypts against the author of the event and the
    plain text parses to a value other than [null]; the gift then carries
    that public key and the token and note of the parsed value.  The kind,
    the id, the signature and the date of the event play no part. *)
Theorem unwrapCashuToken_gives_gift
    (event : Event) (sk : PrivateKey) (w : World) (gift : GiftWrap) :
  (Nip60.unwrapCashuToken prim event sk w = (Ok (Some gift), w) <->
   exists plain,
     getPublicKey prim sk = Ok (recipientPubkey gift)
     /\ (exists tag, In tag (tags event) /\ nth_error tag 0 = Some "p"
                     /\ nth_error tag 1 = Some (recipientPubkey gift))
     /\ (exists tag, In tag (tags event) /\ nth_error tag 0 = Some "gift"
                     /\ nth_error tag 1 = Some "cashu")
     /\ nip04_decrypt prim sk (pubkey event) (content event) = Ok plain
     /\ JSON_parse_gift prim plain = Ok (JObject (gw_token gift) (gw_note gift)))
  /\
  (forall k date i s,
     Nip60.unwrapCashuToken prim
       {| kind := k; pubkey := pubkey event; created_at := date;
          tags := tags event; content := content event; ev_id := i; sig := s |}
       sk w
     = Nip60.unwrapCashuToken prim event sk w).
Proof.
  split; [|reflexivity].
  unfold Nip60.unwrapCashuToken. Nip60Spec.async_unfold.
  destruct (getPublicKey prim sk) as [pk|e] eqn:Hpk.
  2: { split; [discriminate|]. intros [plain [H _]]. discriminate. }
  destruct (existsb (fun tag => tag_is tag 0 "p" && tag_is tag 1 pk) (tags event))
    eqn:Hp; cbn.
  2: { split; [discriminate|]. intros [plain [H [[tag [Hin [H0 H1]]] _]]].
       inversion H; subst pk.
       assert (Hex : existsb (fun tag => tag_is tag 0 "p"
                                && tag_is tag 1 (recipientPubkey gift))
                       (tags event) = true).
       { apply existsb_exists. exists tag. split; [exact Hin|].
         apply andb_true_iff. split; apply Nip60Spec.tag_is_spec; assumption. }
       congruence. }
  destruct (existsb (fun tag => tag_is tag 0 "gift" && tag_is tag 1 "cashu")
              (tags event)) eqn:Hg; cbn.
  2: { split; [discriminate|]. intros [plain [_ [_ [[tag [Hin [H0 H1]]] _]]]].
       assert (Hex : existsb (fun tag => tag_is tag 0 "gift" && tag_is tag 1 "cashu")
                       (tags event) = true).
       { apply existsb_exists. exists tag. split; [exact Hin|].
         apply andb_true_iff. split; apply Nip60Spec.tag_is_spec; assumption. }
       congruence. }
  apply existsb_exists in Hp. destruct Hp as [tp [Hinp Htp]].
  apply andb_true_iff in Htp. destruct Htp as [Htp0 Htp1].
  apply Nip60Spec.tag_is_spec in Htp0, Htp1.
  apply existsb_exists in Hg. destruct Hg as [tg [Hing Htg]].
  apply andb_true_iff in Htg. destruct Htg as [Htg0 Htg1].
  apply Nip60Spec.tag_is_spec in Htg0, Htg1.
  destruct (nip04_decrypt prim sk (pubkey event) (content event)) as [plain|e]
    eqn:Hdec.
  2: { split; [discriminate|]. intros [plain [_ [_ [_ [H _]]]]]. discriminate. }
  destruct (JSON_parse_gift prim plain) as [[|token note]|e] eqn:Hparse; cbn.
  - split; [discriminate|]. intros [plain' [_ [_ [_ [H H']]]]].
    inversion H; subst plain'. congruence.
  - split.
    + intros H. inversion H; subst gift. cbn. exists plain.
      split; [reflexivity|]. split; [exists tp; auto|]. split; [exists tg; auto|].
      split; [reflexivity|exact Hparse].
    + intros [plain' [Hk [_ [_ [H H']]]]]. inversion H; subst plain'.
      rewrite Hparse in H'. inversion H'; subst. inversion Hk; subst pk.
      destruct gift; reflexivity.
  - split; [discriminate|]. intros [plain' [_ [_ [_ [H H']]]]].
    inversion H; subst plain'. congruence.
Qed.

Variable this : RoutstrClient.

(** X24. The client's [unwrapCashuToken] never throws.  It reports success
    exactly when the event passes [isValidCashuGiftWrap] and
    [unwrapCashuToken] of the codec gives a gift for the client's key, and
    it then returns that gift; when it reports failure it returns no gift
    and the world is as before. *)
Theorem client_unwrap_outcome (event : Event) (w : World) :
  exists r w',
    Client.unwrapCashuToken prim this event w = (Ok r, w')
    /\ (u_success r = true <->
        isValidCashuGiftWrap event = true
        /\ exists gift,
             Nip60.unwrapCashuToken prim event (privateKey this) w
             = (Ok (Some gift), w))
    /\ (u_success r = true ->
        Nip60.unwrapCashuToken prim event (privateKey this) w = (Ok (u_gift r), w))
    /\ (u_success r = false -> u_gift r = None /\ w' = w).
Proof.
  unfold Client.unwrapCashuToken. unfold try_catch at 1.
  destruct (isValidCashuGiftWrap event) eqn:Hvalid; cbn.
  2: { unfold ret. eexists _, _. split; [reflexivity|]. cbn.
       split; [split; [discriminate|intros [H _]; discriminate]|].
       split; [discriminate|]. auto. }
  unfold bind at 1.
  destruct (Nip60Spec.unwrapCashuToken_pure prim event (privateKey this) w)
    as [g Hg].
  rewrite Hg. destruct g as [gift|].
  - destruct w as [[st|] tr].
    + destruct (ClientSpec.getStoredWrappedTokens_pure
                  {| storage := Some st; trace := tr |}) as [gifts Hgifts].
      unfold bind.
      rewrite (ClientSpec.removeWrappedToken_run _ _ _ _ Hgifts).
      unfold ret. eexists _, _. split; [reflexivity|]. cbn.
      split; [split; [intros _; split; [reflexivity|exists gift; reflexivity]
                     |reflexivity]|].
      split; [reflexivity|discriminate].
    + cbn. eexists _, _. split; [reflexivity|]. cbn.
      split; [split; [intros _; split; [reflexivity|exists gift; reflexivity]
                     |reflexivity]|].
      split; [reflexivity|discriminate].
  - unfold ret. eexists _, _. split; [reflexivity|]. cbn.
    split; [split; [discriminate|intros [_ [gift H]]; discriminate]|].
    split; [discriminate|]. auto.
Qed.

(** X25. The client's [wrapCashuToken] never throws.  It reports success
    exactly when [wrapCashuToken] of the codec returns an event, and it
    then returns that event, recorded at the end of the list of sent gifts
    where that list can be read; when wrapping throws it reports failure
    with the message of the error and the world is as before. *)
Theorem client_wrap_outcome
    (Date_now : Z) (token recipientPub : string) (note : option string)
    (st : LocalStorage) (tr : list Call) (gifts : list Event) :
  readable st gifts ->
  let w := {| storage := Some st; trace := tr |} in
  match Nip60.wrapCashuToken prim Date_now token recipientPub (privateKey this) note w with
  | (Ok event, _) =>
      Client.wrapCashuToken prim Date_now this token recipientPub note w
      = (Ok (mkGiftWrapResult true (Some event) (Some "Token wrapped successfully")),
         {| storage := Some (with_gifts st (gifts ++ [event])); trace := tr |})
  | (Throw e, _) =>
      Client.wrapCashuToken prim Date_now this token recipientPub note w
      = (Ok (mkGiftWrapResult false None (Some (message_or e "Failed to wrap token"))),
         w)
  end.
Proof.
  intros Hread w. subst w.
  destruct (Nip60.wrapCashuToken prim Date_now token recipientPub
              (privateKey this) note {| storage := Some st; trace := tr |})
    as [[event|e] w1] eqn:Hwrap.
  - assert (Hw := wrap_world _ _ _ _ _ _ _ _ Hwrap). subst w1.
    unfold Client.wrapCashuToken, try_catch, bind. rewrite Hwrap.
    destruct (storeWrappedToken_appends event st tr gifts Hread)
      as [w2 [Hstore [Hw2 _]]].
    rewrite Hstore. subst w2. reflexivity.
  - assert (Hw := wrap_world _ _ _ _ _ _ _ _ Hwrap). subst w1.
    unfold Client.wrapCashuToken, try_catch, bind. rewrite Hwrap. reflexivity.
Qed.

End WithPrimitives.

End GiftFacts.

(* ================================================================== *)
(** ** Properties of the transaction ledger *)
(* ================================================================== *)

Module LedgerFacts.

Import Ledger Shapes.

Ltac ledger_unfold :=
  unfold getItem_TRANSACTION_HISTORY_KEY, setItem_TRANSACTION_HISTORY_KEY,
         bind, try_catch, ret, throw, lift_outcome,
         read_storage, write_storage, localStorage_undefined in *;
  cbn [storage trace fst snd] in *.

Section WithCodec.

Variable codec : HistoryCodec.

(** Reading the ledger never throws and touches nothing. *)
Lemma getTransactionHistory_pure (w : World) :
  exists h, getTransactionHistory codec w = (Ok h, w).
Proof.
  unfold getTransactionHistory. ledger_unfold.
  destruct w as [[st|] tr]; cbn; [|eexists; reflexivity].
  destruct (truthy_item (transaction_history st)) as [s|]; [|eexists; reflexivity].
  destruct (JSON_parse_history codec s); eexists; reflexivity.
Qed.

Lemma addTransaction_run
    (t : TransactionHistory) (st : LocalStorage) (tr : list Call)
    (h : list TransactionHistory) :
  getTransactionHistory codec {| storage := Some st; trace := tr |}
  = (Ok h, {| storage := Some st; trace := tr |}) ->
  addTransaction codec t {| storage := Some st; trace := tr |}
  = (Ok tt,
     {| storage := Some (with_ledger st (JSON_stringify_history codec (h ++ [t])));
        trace := tr |}).
Proof.
  intros Hget. unfold addTransaction.
  unfold try_catch, bind, localStorage_undefined. cbn [storage].
  rewrite Hget. reflexivity.
Qed.

Lemma getTransactionHistory_text
    (st : LocalStorage) (tr : list Call) (text : string)
    (h : list TransactionHistory) :
  truthy text = true ->
  JSON_parse_history codec text = Ok h ->
  getTransactionHistory codec {| storage := Some (with_ledger st text); trace := tr |}
  = (Ok h, {| storage := Some (with_ledger st text); trace := tr |}).
Proof.
  intros Htruthy Hparse. unfold getTransactionHistory. ledger_unfold. cbn.
  rewrite Htruthy, Hparse. reflexivity.
Qed.

(** X26. The ledger is append-only in the order of the calls: if the ledger
    reads as [h] and the codec reads back each text it writes on the way,
    then after [addTransaction] of the entries [ts], one after the other,
    the ledger reads as [h] followed by [ts]; the other keys of
    [localStorage] and the trace are untouched. *)
Theorem addTransaction_appends_in_order
    (ts h : list TransactionHistory) (st : LocalStorage) (tr : list Call) :
  getTransactionHistory codec {| storage := Some st; trace := tr |}
  = (Ok h, {| storage := Some st; trace := tr |}) ->
  (forall k, (1 <= k <= List.length ts)%nat ->
     let text := JSON_stringify_history codec (h ++ firstn k ts) in
     truthy text = true
     /\ JSON_parse_history codec text = Ok (h ++ firstn k ts)%list) ->
  exists st',
    let w' := {| storage := Some st'; trace := tr |} in
    in_turn (map (addTransaction codec) ts) {| storage := Some st; trace := tr |}
    = (Ok tt, w')
    /\ getTransactionHistory codec w' = (Ok (h ++ ts)%list, w')
    /\ cashu_proofs st' = cashu_proofs st
    /\ current_token st' = current_token st
    /\ wrapped_cashu_tokens st' = wrapped_cashu_tokens st.
Proof.
  revert h st. induction ts as [|t ts IH]; intros h st Hget Hcodec.
  - exists st. cbn. rewrite app_nil_r. auto.
  - destruct (Hcodec 1%nat) as [Htruthy Hparse]; [cbn; lia|].
    cbn [firstn] in Htruthy, Hparse.
    pose proof (getTransactionHistory_text st tr _ _ Htruthy Hparse) as Hget1.
    destruct (IH (h ++ [t])%list
                 (with_ledger st (JSON_stringify_history codec (h ++ [t])))
                 Hget1) as [st' [Hrun [Hread [Hp [Hc Hw]]]]].
    { intros k Hk. specialize (Hcodec (S k)).
      cbn [firstn] in Hcodec. rewrite <- app_assoc. cbn [app].
      apply Hcodec. cbn. lia. }
    exists st'. cbn [map in_turn]. unfold bind at 1.
    rewrite (addTransaction_run t st tr h Hget).
    split; [exact Hrun|]. split.
    + rewrite <- app_assoc in Hread. exact Hread.
    + auto.
Qed.

(** X27. A ledger that cannot be parsed is discarded by the next
    [addTransaction]: it reads as empty, and the text written holds the new
    entry alone. *)
Theorem addTransaction_discards_unreadable
    (t : TransactionHistory) (st : LocalStorage) (tr : list Call)
    (text : string) (e : Thrown) :
  transaction_history st = Some text ->
  truthy text = true ->
  JSON_parse_history codec text = Throw e ->
  let w := {| storage := Some st; trace := tr |} in
  getTransactionHistory codec w = (Ok [], w)
  /\ addTransaction codec t w
     = (Ok tt,
        {| storage := Some (with_ledger st (JSON_stringify_history codec [t]));
           trace := tr |}).
Proof.
  intros Htext Htruthy Hparse w. subst w.
  assert (Hget : getTransactionHistory codec {| storage := Some st; trace := tr |}
                 = (Ok [], {| storage := Some st; trace := tr |})).
  { unfold getTransactionHistory. ledger_unfold. cbn.
    rewrite Htext. cbn. rewrite Htruthy, Hparse. reflexivity. }
  split; [exact Hget|].
  rewrite (addTransaction_run t st tr [] Hget). reflexivity.
Qed.

End WithCodec.

End LedgerFacts.

(* ================================================================== *)
(** ** Properties of the error classes *)
(* ================================================================== *)

Module ErrorsFacts.

Import Errors.

(** The class of the error that [handleHttpError] builds follows the
    status alone: it is an [AuthenticationError] exactly for 401, an
    [InsufficientBalanceError] exactly for 402, a [ValidationError] exactly
    for 400 and a [NetworkError] exactly for the statuses other than 400,
    401, 402, 404, 429 and 500; a [NetworkError] carries no status code, and
    every other error carries the status of the response. *)
Lemma handleHttpError_classes (response : Response) :
  let error := handleHttpError response in
  let s := status response in
  isRoutstrError error = true
  /\ (isAuthenticationError error = true <-> s = 401)
  /\ (isInsufficientBalanceError error = true <-> s = 402)
  /\ (isValidationError error = true <-> s = 400)
  /\ (isNetworkError error = true <->
      s <> 400 /\ s <> 401 /\ s <> 402 /\ s <> 404 /\ s <> 429 /\ s <> 500)
  /\ (isNetworkError error = true <-> err_statusCode error = None)
  /\ (isNetworkError error = false <-> err_statusCode error = Some s).
Proof.
  intros error s. subst error s. unfold handleHttpError.
  repeat match goal with
         | |- context [if ?b then _ else _] =>
             let E := fresh "E" in
             destruct b eqn:E;
             [apply Z.eqb_eq in E|apply Z.eqb_neq in E]
         end;
    cbn; try rewrite E in *;
    repeat split; intros; try discriminate; try lia; try congruence;
    try (exfalso; lia).
Qed.

End ErrorsFacts.

(* ================================================================== *)
(** ** Properties of the configuration and of the balance of the client *)
(* ================================================================== *)

Module ConfigFacts.

Import Nip60 Errors Config.

Lemma ensure_trailing_slash_ends (config : FullConfig) :
  endsWith (baseUrl (ensure_trailing_slash config)) "/" = true.
Proof.
  unfold ensure_trailing_slash.
  destruct (endsWith (baseUrl config) "/") eqn:E; cbn.
  - exact E.
  - apply StringFacts.endsWith_append.
Qed.

Lemma ensure_trailing_slash_keeps (config : FullConfig) :
  nsec (ensure_trailing_slash config) = nsec config
  /\ mintUrl (ensure_trailing_slash config) = mintUrl config
  /\ defaultModel (ensure_trailing_slash config) = defaultModel config.
Proof.
  unfold ensure_trailing_slash.
  destruct (endsWith (baseUrl config) "/"); cbn; auto.
Qed.

Section WithNostrTools.

Variable nip19_decode : string -> Outcome Decoded.
Variable prim : Primitives.



End WithNostrTools.

(** An [updateConfig] sets what it is given and keeps the rest; given
    nothing, it leaves a client whose base URL ends in a slash as it is. *)
Lemma updateConfig_merges (this : ClientState) (updates : ConfigUpdates) :
  mintUrl (st_config (updateConfig this updates))
  = match upd_mintUrl updates with
    | Some u => u
    | None => mintUrl (st_config this)
    end
  /\ (forall u, upd_baseUrl updates = Some u ->
        baseUrl (st_config (updateConfig this updates))
        = if endsWith u "/" then u else u ++ "/")
  /\ (endsWith (baseUrl (st_config this)) "/" = true ->
      updateConfig this (mkUpdates None None None) = this).
Proof.
  split; [|split].
  - unfold updateConfig. cbn.
    rewrite (proj1 (proj2 (ensure_trailing_slash_keeps _))). reflexivity.
  - intros u Hu. unfold updateConfig, ensure_trailing_slash. cbn. rewrite Hu.
    destruct (endsWith u "/"); reflexivity.
  - intros Hslash. unfold updateConfig, ensure_trailing_slash. cbn.
    rewrite Hslash. cbn. destruct this as [sk pk [n m b d]]. cbn.
    destruct d; reflexivity.
Qed.

(** X30. [getBalance] never throws.  The [proofs] figure is the balance of the
    ProofStore as the call leaves it, the [api] figure is never positive,
    and the total is their sum, hence never more than the [proofs]
    figure. *)
Theorem getBalance_figures (ext : Externals) (this : ClientState) (w : World) :
  exists b w',
    getBalance ext this w = (Ok b, w')
    /\ Cashu.getBalanceFromStoredProofs w' = (Ok (proofs b), w')
    /\ api b <= 0
    /\ total b = api b + proofs b
    /\ total b <= proofs b.
Proof.
  destruct (WalletFacts.fetchBalances_shape ext (mintUrl (st_config this))
              (baseUrl (st_config this)) w) as [a [s [w' [Hrun [Hle Hs]]]]].
  unfold getBalance, bind. rewrite Hrun. unfold ret.
  eexists _, w'. split; [reflexivity|]. cbn [api proofs total].
  unfold Cashu.MSATS_PER_SAT.
  rewrite Z.div_mul by discriminate.
  rewrite Z.div_add by discriminate.
  assert (a / 1000 <= 0) by (apply Z.div_le_upper_bound; lia).
  split; [exact Hs|]. split; [assumption|]. split; lia.
Qed.

End ConfigFacts.

(* ================================================================== *)
(** ** The further properties at the sample worlds *)
(* ================================================================== *)

Module AtMoreSamples.

Import Cashu Nip60 Samples MoreSamples Shapes.

(** *** The refund *)

Lemma refundRemainingBalance_failure_keeps_storage_witness :
  success (mkResult false None (Some "Failed to fetch")) = false
  /\ storage {| storage := Some with_tokens;
                trace := [CallFetch (refund_request baseUrl "cashuAtok")] |}
     = storage {| storage := Some with_tokens; trace := [] |}.
Proof.
  split; [reflexivity|].
  apply (CashuSpec.refundRemainingBalance_failure_keeps_storage offline mintUrl
           baseUrl None
           {| storage := Some with_tokens; trace := [] |}
           {| storage := Some with_tokens;
              trace := [CallFetch (refund_request baseUrl "cashuAtok")] |}
           (mkResult false None (Some "Failed to fetch")));
    reflexivity.
Defined.

Lemma refundRemainingBalance_recovers_remainder_witness :
  exists w',
    refundRemainingBalance remote_holds_5000 mintUrl baseUrl None
      {| storage := Some with_tokens; trace := [] |}
    = (Ok (mkResult true None (Some "Refund completed successfully")), w')
    /\ storage w' = Some (refunded with_tokens [proof_of 70 "s1"; proof_of 5 "s9"])
    /\ getBalanceFromStoredProofs {| storage := Some with_tokens; trace := [] |}
       = (Ok 70, {| storage := Some with_tokens; trace := [] |})
    /\ getBalanceFromStoredProofs w' = (Ok 75, w').
Proof.
  apply (WalletFacts.refundRemainingBalance_recovers_remainder remote_holds_5000
           mintUrl baseUrl None with_tokens [] "cashuAtok" "cashuArefund"
           (response_of 200 (Ok (mkData 0 (Some "cashuArefund"))))
           (mkData 0 (Some "cashuArefund"))
           [proof_of 70 "s1"] [proof_of 5 "s9"]);
    try reflexivity.
  - right. split; reflexivity.
  - left. reflexivity.
  - discriminate.
Defined.

Lemma refundRemainingBalance_nothing_recovered_witness :
  refundRemainingBalance remote_exhausted mintUrl baseUrl None
    {| storage := Some with_tokens; trace := [] |}
  = (Ok (mkResult true None (Some "Refund completed successfully")),
     {| storage := Some (cleared with_tokens);
        trace := [CallFetch (refund_request baseUrl "cashuAtok")] |})
  /\
  refundRemainingBalance remote_returns_dust mintUrl baseUrl None
    {| storage := Some with_tokens; trace := [] |}
  = (Ok (mkResult true None (Some "Refund completed successfully")),
     {| storage := Some (cleared with_tokens);
        trace := [CallReceive mintUrl "cashuAdust"; CallLoadMint mintUrl;
                  CallFetch (refund_request baseUrl "cashuAtok")] |}).
Proof.
  split.
  - apply (proj1 (WalletFacts.refundRemainingBalance_nothing_recovered
                    remote_exhausted mintUrl baseUrl None with_tokens []
                    "cashuAtok" (response_of 200 (Ok (mkData 0 None)))
                    (mkData 0 None)
                    (or_intror (conj eq_refl eq_refl))
                    eq_refl eq_refl eq_refl eq_refl)).
    reflexivity.
  - apply (proj2 (WalletFacts.refundRemainingBalance_nothing_recovered
                    remote_returns_dust mintUrl baseUrl None with_tokens []
                    "cashuAtok"
                    (response_of 200 (Ok (mkData 0 (Some "cashuAdust"))))
                    (mkData 0 (Some "cashuAdust"))
                    (or_intror (conj eq_refl eq_refl))
                    eq_refl eq_refl eq_refl eq_refl)
             "cashuAdust" (Some []));
      try reflexivity.
    right. reflexivity.
Defined.

Lemma refundRemainingBalance_trailing_slash_witness :
  refundRemainingBalance remote_holds_5000 mintUrl "https://node.example" None
    {| storage := Some with_tokens; trace := [] |}
  = refundRemainingBalance remote_holds_5000 mintUrl "https://node.example/" None
      {| storage := Some with_tokens; trace := [] |}.
Proof.
  apply (WalletFacts.refundRemainingBalance_trailing_slash remote_holds_5000
           mintUrl "https://node.example" None
           {| storage := Some with_tokens; trace := [] |});
    [discriminate|reflexivity].
Defined.


(** *** The balances *)

Lemma fetchBalances_without_token_witness :
  exists stored,
    getBalanceFromStoredProofs
      {| storage := Some (storage_of (Some (Text [proof_of 70 "s1"])) None None);
         trace := [] |}
    = (Ok stored,
       {| storage := Some (storage_of (Some (Text [proof_of 70 "s1"])) None None);
          trace := [] |})
    /\ fetchBalances offline mintUrl baseUrl
         {| storage := Some (storage_of (Some (Text [proof_of 70 "s1"])) None None);
            trace := [] |}
       = (Ok (0, stored * MSATS_PER_SAT),
          {| storage := Some (storage_of (Some (Text [proof_of 70 "s1"])) None None);
             trace := [] |}).
Proof.
  apply (proj1 (WalletFacts.fetchBalances_without_token offline mintUrl baseUrl [])
           (storage_of (Some (Text [proof_of 70 "s1"])) None None)).
  reflexivity.
Defined.

Lemma fetchBalances_empty_token_stays_witness :
  let w' := {| storage := Some with_tokens;
               trace := [CallFetch (balance_query baseUrl "cashuAtok")] |} in
  exists stored,
    fetchBalances mint_exact mintUrl baseUrl
      {| storage := Some with_tokens; trace := [] |}
    = (Ok (0, stored * MSATS_PER_SAT), w')
    /\ getOrCreateApiToken mint_exact mintUrl None w'
       = (Ok (TokenString "cashuAtok"), w').
Proof.
  apply (WalletFacts.fetchBalances_empty_token_stays mint_exact mintUrl baseUrl
           None with_tokens [] "cashuAtok"
           (response_of 200 (Ok (mkData 0 None))) (mkData 0 None));
    try reflexivity; try (cbn; lia).
Defined.

Lemma fetchBalances_refund_recovered_witness :
  fetchBalances remote_holds_5000 mintUrl baseUrl
    {| storage := Some with_tokens; trace := [] |}
  = (Ok (0, 75000),
     {| storage := Some (refunded with_tokens [proof_of 70 "s1"; proof_of 5 "s9"]);
        trace := [CallReceive mintUrl "cashuArefund"; CallLoadMint mintUrl;
                  CallFetch (refund_request baseUrl "cashuAtok");
                  CallFetch (balance_query baseUrl "cashuAtok")] |}).
Proof.
  apply (WalletFacts.fetchBalances_refund_recovered remote_holds_5000 mintUrl
           baseUrl with_tokens [] "cashuAtok" "cashuArefund"
           (response_of 200 (Ok (mkData 5000 None)))
           (response_of 200 (Ok (mkData 0 (Some "cashuArefund"))))
           (mkData 5000 None) (mkData 0 (Some "cashuArefund"))
           [proof_of 70 "s1"] [proof_of 5 "s9"]);
    try reflexivity.
  - left. reflexivity.
  - discriminate.
Defined.

Lemma fetchBalances_refund_failed_witness :
  fetchBalances refund_unreachable mintUrl baseUrl
    {| storage := Some with_tokens; trace := [] |}
  = (Ok (0, 70000),
     {| storage := Some with_tokens;
        trace := [CallFetch (refund_request baseUrl "cashuAtok");
                  CallFetch (balance_query baseUrl "cashuAtok")] |}).
Proof.
  apply (WalletFacts.fetchBalances_refund_failed refund_unreachable mintUrl
           baseUrl with_tokens [] "cashuAtok"
           (response_of 200 (Ok (mkData 5000 None))) (mkData 5000 None)
           (ErrorObj "Failed to fetch") [proof_of 70 "s1"]);
    try reflexivity.
  left. reflexivity.
Defined.

(** *** Minting a token *)

Lemma generateApiToken_encoding_failure_witness :
  generateApiToken encoder_fails mintUrl (inject_Z 30)
    {| storage := Some (storage_of (Some (Text [proof_of 70 "s1"])) None None);
       trace := [] |}
  = (Ok None,
     {| storage := Some (storage_of (Some (Text [])) None None);
        trace := [CallSend mintUrl (inject_Z 30) [proof_of 70 "s1"];
                  CallLoadMint mintUrl] |}).
Proof.
  apply (WalletFacts.generateApiToken_encoding_failure encoder_fails mintUrl
           (inject_Z 30)
           (storage_of (Some (Text [proof_of 70 "s1"])) None None) []
           [proof_of 70 "s1"] [proof_of 70 "s1"]
           {| send := Some [proof_of 70 "s1"]; keep := [] |}
           (ErrorObj "Invalid character"));
    try reflexivity.
  discriminate.
Defined.

Lemma getOrCreateApiToken_creates_and_caches_witness :
  let w' := {| storage := Some (storage_of (Some (Text []))
                                           (Some "cashuAeyJ0b2tlbiI6W119") None);
               trace := [CallSend mintUrl (inject_Z 50) [proof_of 70 "s1"];
                         CallLoadMint mintUrl] |} in
  getOrCreateApiToken mint_exact mintUrl None
    {| storage := Some (storage_of (Some (Text [proof_of 70 "s1"])) None None);
       trace := [] |}
  = (Ok (TokenString "cashuAeyJ0b2tlbiI6W119"), w')
  /\ getOrCreateApiToken mint_exact mintUrl (Some (inject_Z 10)) w'
     = (Ok (TokenString "cashuAeyJ0b2tlbiI6W119"), w').
Proof.
  apply (WalletFacts.getOrCreateApiToken_creates_and_caches mint_exact mintUrl
           None (Some (inject_Z 10))
           (storage_of (Some (Text [proof_of 70 "s1"])) None None) []
           [proof_of 70 "s1"] [proof_of 70 "s1"]
           {| send := Some [proof_of 70 "s1"]; keep := [] |}
           "eyJ0b2tlbiI6W119");
    try reflexivity.
  discriminate.
Defined.

Lemma getOrCreateApiToken_returns_cached_witness :
  truthy "cashuAeyJ0b2tlbiI6W119" = true
  /\ exists st',
       storage {| storage := Some (storage_of (Some (Text []))
                                              (Some "cashuAeyJ0b2tlbiI6W119") None);
                  trace := [CallSend mintUrl (inject_Z 50) [proof_of 70 "s1"];
                            CallLoadMint mintUrl] |}
       = Some st'
       /\ current_token st' = Some "cashuAeyJ0b2tlbiI6W119".
Proof.
  apply (WalletFacts.getOrCreateApiToken_returns_cached mint_exact mintUrl None
           {| storage := Some (storage_of (Some (Text [proof_of 70 "s1"])) None None);
              trace := [] |}
           {| storage := Some (storage_of (Some (Text []))
                                          (Some "cashuAeyJ0b2tlbiI6W119") None);
              trace := [CallSend mintUrl (inject_Z 50) [proof_of 70 "s1"];
                        CallLoadMint mintUrl] |}
           "cashuAeyJ0b2tlbiI6W119").
  reflexivity.
Defined.

Lemma getOrCreateApiToken_persisted_set_witness :
  fst (getOrCreateApiToken mint_spent mintUrl None
         {| storage := Some (storage_of (Some (Text [])) None None); trace := [] |})
  <> Ok HasTokensFalse.
Proof.
  apply (CashuSpec.getOrCreateApiToken_persisted_set mint_spent mintUrl None
           (storage_of (Some (Text [])) None None) [] (Text []));
    reflexivity.
Defined.

(** *** Importing a token *)

Lemma importToken_failure_keeps_storage_witness :
  storage {| storage := Some with_tokens;
             trace := [CallReceive mintUrl "cashuAgift"; CallLoadMint mintUrl] |}
  = storage {| storage := Some with_tokens; trace := [] |}.
Proof.
  apply (CashuSpec.importToken_failure_keeps_storage mint_spent "cashuAgift"
           mintUrl
           {| storage := Some with_tokens; trace := [] |}
           {| storage := Some with_tokens;
              trace := [CallReceive mintUrl "cashuAgift"; CallLoadMint mintUrl] |}
           (mkResult false None (Some "This token has already been spent")));
    reflexivity.
Defined.

Lemma importToken_unreadable_store_witness :
  exists r,
    importToken remote_holds_5000 "cashuAgift" mintUrl
      {| storage := Some unreadable_proofs; trace := [] |}
    = (Ok r,
       {| storage := Some unreadable_proofs;
          trace := [CallReceive mintUrl "cashuAgift"; CallLoadMint mintUrl] |})
    /\ success r = false.
Proof.
  apply (WalletFacts.importToken_unreadable_store remote_holds_5000 "cashuAgift"
           mintUrl unreadable_proofs [] [proof_of 5 "s9"]);
    try reflexivity.
  discriminate.
Defined.

(** *** The sent gifts *)

Lemma storeWrappedToken_appends_witness :
  let st := storage_of None None (Some (Text [gift_event "ev1" "bob" ["gift"; "cashu"]])) in
  exists w',
    storeWrappedToken (gift_event "ev2" "carol" ["gift"; "cashu"])
      {| storage := Some st; trace := [] |} = (Ok tt, w')
    /\ w' = {| storage :=
                 Some (with_gifts st [gift_event "ev1" "bob" ["gift"; "cashu"];
                                      gift_event "ev2" "carol" ["gift"; "cashu"]]);
               trace := [] |}
    /\ getStoredWrappedTokens w'
       = (Ok [gift_event "ev1" "bob" ["gift"; "cashu"];
              gift_event "ev2" "carol" ["gift"; "cashu"]], w').
Proof.
  intros st.
  apply (GiftFacts.storeWrappedToken_appends
           (gift_event "ev2" "carol" ["gift"; "cashu"]) st []
           [gift_event "ev1" "bob" ["gift"; "cashu"]]).
  left. reflexivity.
Defined.

Lemma unreadable_gift_list_witness :
  let st := storage_of None None (Some Junk) in
  let w := {| storage := Some st; trace := [] |} in
  storeWrappedToken (gift_event "ev2" "carol" ["gift"; "cashu"]) w = (Ok tt, w)
  /\ removeWrappedToken "ev1" w
     = (Ok tt, {| storage := Some (with_gifts st []); trace := [] |}).
Proof.
  intros st w.
  apply (GiftFacts.unreadable_gift_list
           (gift_event "ev2" "carol" ["gift"; "cashu"]) "ev1" st []).
  reflexivity.
Defined.

Lemma removeWrappedToken_removes_all_witness :
  let gifts := [gift_event "ev1" "bob" ["gift"; "cashu"];
                gift_event "ev2" "carol" ["gift"; "cashu"];
                gift_event "ev1" "bob" ["gift"; "cashu"; "v2"]] in
  let st := storage_of None None (Some (Text gifts)) in
  let w' := {| storage :=
                 Some (with_gifts st [gift_event "ev2" "carol" ["gift"; "cashu"]]);
               trace := [] |} in
  removeWrappedToken "ev1" {| storage := Some st; trace := [] |} = (Ok tt, w')
  /\ getStoredWrappedTokens w'
     = (Ok [gift_event "ev2" "carol" ["gift"; "cashu"]], w')
  /\ removeWrappedToken "ev1" w' = (Ok tt, w').
Proof.
  intros gifts st w'.
  destruct (GiftFacts.removeWrappedToken_removes_all "ev1" st [] gifts
              (or_introl eq_refl)) as [Hrun [Hget [_ [_ Hagain]]]].
  split; [exact Hrun|]. split; [exact Hget|exact Hagain].
Defined.

Lemma wrapCashuToken_is_valid_witness :
  let w := {| storage := Some (storage_of None None None); trace := [] |} in
  exists event,
    Nip60.wrapCashuToken toy_prim 1700000000123 "cashuAabc" "bob" alice_key
      (Some "thanks") w = (Ok event, w)
    /\ isValidCashuGiftWrap event = true
    /\ tags event = [["p"; "bob"]; ["gift"; "cashu"]]
    /\ created_at event = 1700000000.
Proof.
  intros w.
  destruct (Nip60.wrapCashuToken toy_prim 1700000000123 "cashuAabc" "bob"
              alice_key (Some "thanks") w) as [o w1] eqn:Hwrap.
  destruct o as [event|e]; [|vm_compute in Hwrap; discriminate Hwrap].
  destruct (GiftFacts.wrapCashuToken_is_valid toy_prim 1700000000123 "cashuAabc"
              "bob" alice_key (Some "thanks") w w1 event Hwrap)
    as [Hw [Hvalid [_ [Htags [_ [Hdate _]]]]]].
  exists event. subst w1. split; [reflexivity|]. split; [exact Hvalid|].
  split; [exact Htags|]. rewrite Hdate. reflexivity.
Defined.

Lemma unwrapCashuToken_gives_gift_witness :
  let w := {| storage := Some (storage_of None None None); trace := [] |} in
  Nip60.unwrapCashuToken toy_prim (gift_event "ev1" "bob" ["gift"; "cashu"])
    bob_key w
  = (Ok (Some {| gw_token := Some "cashuAabc";
                 recipientPubkey := "bob";
                 gw_note := Some "thanks" |}), w)
  /\ exists plain,
       nip04_decrypt toy_prim bob_key "alice" "sealed:cashuAabc#thanks" = Ok plain
       /\ JSON_parse_gift toy_prim plain
          = Ok (JObject (Some "cashuAabc") (Some "thanks")).
Proof.
  intros w. split.
  - apply (proj2 (proj1 (GiftFacts.unwrapCashuToken_gives_gift toy_prim
                           (gift_event "ev1" "bob" ["gift"; "cashu"]) bob_key w
                           {| gw_token := Some "cashuAabc";
                              recipientPubkey := "bob";
                              gw_note := Some "thanks" |}))).
    exists "cashuAabc#thanks". split; [reflexivity|]. split.
    + exists ["p"; "bob"]. split; [left; reflexivity|]. split; reflexivity.
    + split.
      * exists ["gift"; "cashu"]. split; [right; left; reflexivity|].
        split; reflexivity.
      * split; reflexivity.
  - destruct (proj1 (proj1 (GiftFacts.unwrapCashuToken_gives_gift toy_prim
                              (gift_event "ev1" "bob" ["gift"; "cashu"]) bob_key w
                              {| gw_token := Some "cashuAabc";
                                 recipientPubkey := "bob";
                                 gw_note := Some "thanks" |})) eq_refl)
      as [plain [_ [_ [_ [Hdec Hparse]]]]].
    exists plain. split; [exact Hdec|exact Hparse].
Defined.

Lemma client_unwrap_outcome_witness :
  let w := {| storage := Some (storage_of None None None); trace := [] |} in
  (exists r w',
     Client.unwrapCashuToken toy_prim bob
       (gift_event "ev1" "bob" ["gift"; "cashu"]) w = (Ok r, w')
     /\ Client.u_success r = true
     /\ Nip60.unwrapCashuToken toy_prim (gift_event "ev1" "bob" ["gift"; "cashu"])
          bob_key w = (Ok (Client.u_gift r), w))
  /\
  (exists r,
     Client.unwrapCashuToken toy_prim bob
       (gift_event "ev2" "carol" ["gift"; "cashu"]) w = (Ok r, w)
     /\ Client.u_success r = false /\ Client.u_gift r = None).
Proof.
  intros w. split.
  - destruct (GiftFacts.client_unwrap_outcome toy_prim bob
                (gift_event "ev1" "bob" ["gift"; "cashu"]) w)
      as [r [w' [Hrun [Hiff [Hgift _]]]]].
    assert (Hsucc : Client.u_success r = true).
    { apply (proj2 Hiff). split; [reflexivity|]. eexists. reflexivity. }
    exists r, w'. split; [exact Hrun|]. split; [exact Hsucc|exact (Hgift Hsucc)].
  - destruct (GiftFacts.client_unwrap_outcome toy_prim bob
                (gift_event "ev2" "carol" ["gift"; "cashu"]) w)
      as [r [w' [Hrun [Hiff [_ Hfail]]]]].
    assert (Hsucc : Client.u_success r = false).
    { destruct (Client.u_success r) eqn:E; [|reflexivity].
      destruct (proj1 Hiff eq_refl) as [_ [gift Hg]].
      vm_compute in Hg. discriminate Hg. }
    destruct (Hfail Hsucc) as [Hnone Hw]. subst w'.
    exists r. split; [exact Hrun|]. split; [exact Hsucc|exact Hnone].
Defined.

Lemma client_wrap_outcome_witness :
  let st := storage_of None None None in
  let w := {| storage := Some st; trace := [] |} in
  exists event,
    Nip60.wrapCashuToken toy_prim 1700000000123 "cashuAabc" "carol" bob_key None w
    = (Ok event, w)
    /\ Client.wrapCashuToken toy_prim 1700000000123 bob "cashuAabc" "carol" None w
       = (Ok (Client.mkGiftWrapResult true (Some event)
                (Some "Token wrapped successfully")),
          {| storage := Some (with_gifts st [event]); trace := [] |}).
Proof.
  intros st w.
  pose proof (GiftFacts.client_wrap_outcome toy_prim bob 1700000000123 "cashuAabc"
                "carol" None st [] [] (or_intror (conj eq_refl eq_refl))) as H.
  cbv zeta in H. fold w in H.
  destruct (Nip60.wrapCashuToken toy_prim 1700000000123 "cashuAabc" "carol"
              (Client.privateKey bob) None w) as [[event|e] w1] eqn:Hwrap.
  - exists event. split; [|exact H].
    change (Client.privateKey bob) with bob_key in Hwrap.
    rewrite Hwrap. f_equal.
    vm_compute in Hwrap. inversion Hwrap. reflexivity.
  - vm_compute in Hwrap. discriminate Hwrap.
Defined.

(** *** The ledger *)

Lemma addTransaction_appends_in_order_witness :
  let st := storage_of None None None in
  exists st',
    let w' := {| storage := Some st'; trace := [] |} in
    in_turn (map (Ledger.addTransaction toy_codec) [spent_30; import_5])
      {| storage := Some st; trace := [] |}
    = (Ok tt, w')
    /\ Ledger.getTransactionHistory toy_codec w' = (Ok [spent_30; import_5], w').
Proof.
  intros st.
  destruct (LedgerFacts.addTransaction_appends_in_order toy_codec
              [spent_30; import_5] [] st [] eq_refl)
    as [st' [Hrun [Hread _]]].
  - intros k Hk. destruct k as [|[|[|k]]]; cbn in Hk; try lia;
      split; reflexivity.
  - exists st'. split; [exact Hrun|exact Hread].
Defined.

Lemma addTransaction_discards_unreadable_witness :
  let st := {| cashu_proofs := None; current_token := None;
               transaction_history := Some "[30,";
               wrapped_cashu_tokens := None |} in
  let w := {| storage := Some st; trace := [] |} in
  Ledger.getTransactionHistory toy_codec w = (Ok [], w)
  /\ Ledger.addTransaction toy_codec import_5 w
     = (Ok tt, {| storage := Some (with_ledger st "[5]"); trace := [] |}).
Proof.
  intros st w.
  apply (LedgerFacts.addTransaction_discards_unreadable toy_codec import_5 st []
           "[30," (ErrorObj "Unexpected token in JSON"));
    reflexivity.
Defined.

(** *** The configuration *)



End AtMoreSamples.
